(** * The generation orchestrator of [src/app/(main)/layout.tsx]

    A shallow embedding of the [Home] component's logic: the fence-stripping
    helper [removeCodeFormatting], the provider defaults, the token-analytics
    merge, and the five event handlers ([handleChatMessage],
    [generateAppIdea], [refinePrompt], [createApp], [handleLoadGeneration])
    as state transformers over the component's [useState] cells.

    Conventions of the embedding:
    - strings are lists of UTF-16 code units;
    - token counts and [maxTokens] are numbers that hold integers ([Z]),
      added as binary64 numbers are: the exact sum rounded to the nearest
      binary64 value ([js_add]); temperature, topP and the penalties are
      binary64 numbers ([float]);
    - the network is an input: each [fetch] of a handler is given the
      answer it receives, and the requests issued are recorded in order;
    - a response stream is a finite list of chunks that ends with [done] or
      with a failed read;
    - a handler runs from the state of the render that created it, to its
      end, with no other event handled in between. *)

From Stdlib Require Import String Ascii.
From Stdlib Require Import List NArith ZArith Bool Lia PrimFloat.
From Equations Require Import Equations.
Import ListNotations.

Set Implicit Arguments.
Set Warnings "-inexact-float".

(** ** JavaScript strings

    A JavaScript string is a sequence of UTF-16 code units.  The regular
    expression of [removeCodeFormatting] has no [u] flag, so it works on
    code units, and so does [String.prototype.trim]. *)

Module Str.

Definition char16 := N.
Definition jsstring := list char16.

(** An ASCII literal as a JavaScript string. *)
Definition js (s : string) : jsstring :=
  map N_of_ascii (list_ascii_of_string s).

Fixpoint eqb (a b : jsstring) : bool :=
  match a, b with
  | [], [] => true
  | x :: a', y :: b' => N.eqb x y && eqb a' b'
  | _, _ => false
  end.

(** [!s] on a string: the empty string is the only falsy one. *)
Definition falsy (s : jsstring) : bool :=
  match s with [] => true | _ :: _ => false end.

Definition newline : char16 := 10%N.
Definition backtick : char16 := 96%N.

(** The three backticks that open and close a fenced block. *)
Definition fence : jsstring := [backtick; backtick; backtick].

(** ECMAScript [WhiteSpace] and [LineTerminator] code points, the ones
    [trim] removes: TAB, LF, VT, FF, CR, SP, NBSP, U+1680, U+2000..U+200A,
    U+2028, U+2029, U+202F, U+205F, U+3000 and the BOM U+FEFF. *)
Definition is_white_space (c : char16) : bool :=
  ((9 <=? c) && (c <=? 13) || (c =? 32) || (c =? 160) || (c =? 5760)
   || (8192 <=? c) && (c <=? 8202) || (c =? 8232) || (c =? 8233)
   || (c =? 8239) || (c =? 8287) || (c =? 12288) || (c =? 65279))%N.

Fixpoint trimStart (s : jsstring) : jsstring :=
  match s with
  | [] => []
  | c :: s' => if is_white_space c then trimStart s' else s
  end.

Definition trimEnd (s : jsstring) : jsstring := rev (trimStart (rev s)).

(** [String.prototype.trim]. *)
Definition trim (s : jsstring) : jsstring := trimEnd (trimStart s).

(** *** The pattern [/```(?:typescript|javascript|tsx)?\n([\s\S]*?)```/g]

    A backtracking matcher written after the pattern.  Every function takes
    the text at the current position and returns what follows the part it
    consumed. *)

(** A literal: [strip_prefix p s] is the rest of [s] after [p]. *)
Fixpoint strip_prefix (p s : jsstring) : option jsstring :=
  match p, s with
  | [], _ => Some s
  | _ :: _, [] => None
  | a :: p', b :: s' => if N.eqb a b then strip_prefix p' s' else None
  end.

(** [([\s\S]*?)```]: the lazy star takes the fewest code units such that a
    fence follows.  Returns the captured group and the text after the
    closing fence. *)
Fixpoint lazy_until_fence (s : jsstring) : option (jsstring * jsstring) :=
  match strip_prefix fence s with
  | Some rest => Some ([], rest)
  | None =>
      match s with
      | [] => None
      | c :: s' =>
          match lazy_until_fence s' with
          | Some (cap, rest) => Some (c :: cap, rest)
          | None => None
          end
      end
  end.

(** [\n([\s\S]*?)```], the part of the pattern after the optional tag. *)
Definition after_tag (s : jsstring) : option (jsstring * jsstring) :=
  match s with
  | c :: s' => if N.eqb c newline then lazy_until_fence s' else None
  | [] => None
  end.

(** The alternatives of [(?:typescript|javascript|tsx)], in order. *)
Definition language_tags : list jsstring :=
  [js "typescript"; js "javascript"; js "tsx"].

(** An alternation followed by the continuation [k]: the alternatives are
    tried from left to right and the first one after which [k] succeeds
    wins. *)
Fixpoint first_alternative {A : Type} (k : jsstring -> option A)
    (alts : list jsstring) (s : jsstring) : option A :=
  match alts with
  | [] => None
  | a :: alts' =>
      match match strip_prefix a s with Some r => k r | None => None end with
      | Some x => Some x
      | None => first_alternative k alts' s
      end
  end.

(** One attempt to match the whole pattern at the start of [s].  The greedy
    [?] tries the group first and the empty string last. *)
Definition match_at (s : jsstring) : option (jsstring * jsstring) :=
  match strip_prefix fence s with
  | Some r => first_alternative after_tag (language_tags ++ [[]]) r
  | None => None
  end.

Lemma strip_prefix_length (p s r : jsstring) :
  strip_prefix p s = Some r -> length s = length p + length r.
Proof.
  revert s; induction p as [|a p IH]; intros s; simpl.
  - intros [= <-]. reflexivity.
  - destruct s as [|b s]; [discriminate|].
    destruct (N.eqb a b); [|discriminate].
    intros H. simpl. rewrite (IH _ H). reflexivity.
Qed.

Lemma lazy_until_fence_unfold (s : jsstring) :
  lazy_until_fence s =
  match strip_prefix fence s with
  | Some rest => Some ([], rest)
  | None =>
      match s with
      | [] => None
      | c :: s' =>
          match lazy_until_fence s' with
          | Some (cap, rest) => Some (c :: cap, rest)
          | None => None
          end
      end
  end.
Proof. destruct s; reflexivity. Qed.

Lemma lazy_until_fence_length (s cap rest : jsstring) :
  lazy_until_fence s = Some (cap, rest) -> length rest < length s.
Proof.
  revert cap; induction s as [|c s IH]; intros cap;
    rewrite lazy_until_fence_unfold.
  - discriminate.
  - destruct (strip_prefix fence (c :: s)) as [r|] eqn:E.
    + intros H; inversion H; subst; clear H.
      apply strip_prefix_length in E.
      change (length fence) with 3 in E. lia.
    + destruct (lazy_until_fence s) as [[cap' rest']|]; [|discriminate].
      intros H; inversion H; subst; clear H.
      specialize (IH _ eq_refl). simpl. lia.
Qed.

Lemma first_alternative_length (alts : list jsstring) (s cap rest : jsstring) :
  first_alternative after_tag alts s = Some (cap, rest) ->
  length rest < length s.
Proof.
  induction alts as [|a alts IH]; simpl; [discriminate|].
  destruct (strip_prefix a s) as [r|] eqn:E; [|exact IH].
  destruct (after_tag r) as [[cap' rest']|] eqn:K; [|exact IH].
  intros H; inversion H; subst; clear H. apply strip_prefix_length in E.
  destruct r as [|c r]; simpl in K; [discriminate|].
  destruct (N.eqb c newline); [|discriminate].
  apply lazy_until_fence_length in K. simpl in E. lia.
Qed.

Lemma match_at_length (s cap rest : jsstring) :
  match_at s = Some (cap, rest) -> length rest < length s.
Proof.
  unfold match_at. destruct (strip_prefix fence s) as [r|] eqn:E;
    [|discriminate].
  intros H. apply first_alternative_length in H.
  apply strip_prefix_length in E. lia.
Qed.

(** Keeps the equation [x = y] when matching on [x]. *)
Definition inspect {A : Type} (x : A) : {y : A | x = y} := exist _ x eq_refl.

(** [code.replace(/.../g, "$1")]: scan from the left; where the pattern
    matches, emit the captured group and go on after the match, otherwise
    copy one code unit.  A match is never empty. *)
Equations? replace_fences (s : jsstring) : jsstring by wf (length s) lt :=
  replace_fences [] := [];
  replace_fences (c :: s') with inspect (match_at (c :: s')) := {
    | exist _ (Some (cap, rest)) _ := cap ++ replace_fences rest;
    | exist _ None _ := c :: replace_fences s' }.
Proof.
  match goal with
  | H : match_at _ = Some _ |- _ => exact (match_at_length _ H)
  end.
Qed.

Definition removeCodeFormatting (code : jsstring) : jsstring :=
  trim (replace_fences code).

(** Vocabulary for statements about fenced text: whether three backticks
    in a row occur anywhere in [s], and whether [s] is white space only. *)
Fixpoint contains_fence (s : jsstring) : bool :=
  match strip_prefix fence s with
  | Some _ => true
  | None =>
      match s with
      | [] => false
      | _ :: s' => contains_fence s'
      end
  end.

Definition blank (s : jsstring) : bool := forallb is_white_space s.

(** A fenced block: the opening fence with its tag, a line break, the
    inner content, and the closing fence. *)
Definition fenced (tag inner : jsstring) : jsstring :=
  fence ++ tag ++ newline :: inner ++ fence.

End Str.

Import Str.

(** ** Records of the data model *)

(** [interface AISettings].  [temperature], [topP] and the penalties are
    binary64 numbers; [maxTokens] holds integers only. *)
Module AISettings.
Record t := {
  temperature : float;
  maxTokens : Z;
  topP : float;
  streamOutput : bool;
  frequencyPenalty : float;
  presencePenalty : float
}.
End AISettings.

(** [interface TokenAnalytics].  Token counts are JavaScript numbers that
    hold integers; a count is the integer it holds, and the JavaScript [+]
    on counts is [js_add] below, which rounds as binary64 does. *)
Module TokenAnalytics.
Record t := {
  modelName : jsstring;
  provider : jsstring;
  promptTokens : Z;
  responseTokens : Z;
  totalTokens : Z;
  maxTokens : Z;
  utilizationPercentage : jsstring
}.
End TokenAnalytics.

(** [interface CumulativeTokenAnalytics extends TokenAnalytics]. *)
Module CumulativeTokenAnalytics.
Record t := {
  modelName : jsstring;
  provider : jsstring;
  promptTokens : Z;
  responseTokens : Z;
  totalTokens : Z;
  maxTokens : Z;
  utilizationPercentage : jsstring;
  cumulativePromptTokens : Z;
  cumulativeResponseTokens : Z;
  cumulativeTotalTokens : Z
}.
End CumulativeTokenAnalytics.

(** [interface Analytics], the stored form with a numeric percentage. *)
Module Analytics.
Record t := {
  modelName : jsstring;
  provider : jsstring;
  promptTokens : Z;
  responseTokens : Z;
  totalTokens : Z;
  maxTokens : Z;
  utilizationPercentage : float
}.
End Analytics.

(** The [generatedApp] member of a [SavedGeneration]. *)
Module GeneratedApp.
Record t := {
  id : jsstring;
  code : jsstring;
  model : jsstring;
  prompt : jsstring;
  analytics : option Analytics.t
}.
End GeneratedApp.

(** [interface SavedGeneration]. *)
Module SavedGeneration.
Record t := {
  id : jsstring;
  title : jsstring;
  description : option jsstring;
  createdAt : jsstring;
  generatedApp : GeneratedApp.t
}.
End SavedGeneration.

(** [{ role: string; content: string }]. *)
Module Message.
Record t := { role : jsstring; content : jsstring }.
End Message.

(** [type Status]. *)
Inductive Status :=
| initial | creating | created | updating | updated | refining
| brainstorming.

Definition status_eqb (a b : Status) : bool :=
  match a, b with
  | initial, initial | creating, creating | created, created
  | updating, updating | updated, updated | refining, refining
  | brainstorming, brainstorming => true
  | _, _ => false
  end.

(** An entry of [groupedModels]: a provider and its models. *)
Module ModelOption.
Record t := { label : jsstring; value : jsstring }.
End ModelOption.

Module ModelGroup.
Record t := { provider : jsstring; models : list ModelOption.t }.
End ModelGroup.

(** ** The component state: one field per [useState] cell of [Home]
    (the [ref] of [useScrollTo] is a DOM handle and is left out). *)
Module Session.
Record t := {
  status : Status;
  prompt : jsstring;
  generatedCode : jsstring;
  tokenAnalytics : option CumulativeTokenAnalytics.t;
  showAnalytics : bool;
  runtimeError : option jsstring;
  model : jsstring;
  messages : list Message.t;
  currentGeneratedAppId : option jsstring;
  chatVisible : bool;
  refinementMessages : list Message.t;
  showSettings : bool;
  aiSettings : AISettings.t
}.

(** The setters returned by [useState], as functions on the record. *)
Definition setStatus (v : Status) (s : t) : t :=
  {| status := v; prompt := prompt s; generatedCode := generatedCode s;
     tokenAnalytics := tokenAnalytics s; showAnalytics := showAnalytics s;
     runtimeError := runtimeError s; model := model s;
     messages := messages s;
     currentGeneratedAppId := currentGeneratedAppId s;
     chatVisible := chatVisible s;
     refinementMessages := refinementMessages s;
     showSettings := showSettings s; aiSettings := aiSettings s |}.

Definition setPrompt (v : jsstring) (s : t) : t :=
  {| status := status s; prompt := v; generatedCode := generatedCode s;
     tokenAnalytics := tokenAnalytics s; showAnalytics := showAnalytics s;
     runtimeError := runtimeError s; model := model s;
     messages := messages s;
     currentGeneratedAppId := currentGeneratedAppId s;
     chatVisible := chatVisible s;
     refinementMessages := refinementMessages s;
     showSettings := showSettings s; aiSettings := aiSettings s |}.

Definition setGeneratedCode (v : jsstring) (s : t) : t :=
  {| status := status s; prompt := prompt s; generatedCode := v;
     tokenAnalytics := tokenAnalytics s; showAnalytics := showAnalytics s;
     runtimeError := runtimeError s; model := model s;
     messages := messages s;
     currentGeneratedAppId := currentGeneratedAppId s;
     chatVisible := chatVisible s;
     refinementMessages := refinementMessages s;
     showSettings := showSettings s; aiSettings := aiSettings s |}.

(** [setTokenAnalytics] is called with a value ([null]) and with an updater
    function; the functional form covers both. *)
Definition setTokenAnalytics
    (f : option CumulativeTokenAnalytics.t ->
         option CumulativeTokenAnalytics.t) (s : t) : t :=
  {| status := status s; prompt := prompt s;
     generatedCode := generatedCode s;
     tokenAnalytics := f (tokenAnalytics s);
     showAnalytics := showAnalytics s;
     runtimeError := runtimeError s; model := model s;
     messages := messages s;
     currentGeneratedAppId := currentGeneratedAppId s;
     chatVisible := chatVisible s;
     refinementMessages := refinementMessages s;
     showSettings := showSettings s; aiSettings := aiSettings s |}.

Definition setShowAnalytics (v : bool) (s : t) : t :=
  {| status := status s; prompt := prompt s;
     generatedCode := generatedCode s;
     tokenAnalytics := tokenAnalytics s; showAnalytics := v;
     runtimeError := runtimeError s; model := model s;
     messages := messages s;
     currentGeneratedAppId := currentGeneratedAppId s;
     chatVisible := chatVisible s;
     refinementMessages := refinementMessages s;
     showSettings := showSettings s; aiSettings := aiSettings s |}.

Definition setRuntimeError (v : option jsstring) (s : t) : t :=
  {| status := status s; prompt := prompt s;
     generatedCode := generatedCode s;
     tokenAnalytics := tokenAnalytics s; showAnalytics := showAnalytics s;
     runtimeError := v; model := model s;
     messages := messages s;
     currentGeneratedAppId := currentGeneratedAppId s;
     chatVisible := chatVisible s;
     refinementMessages := refinementMessages s;
     showSettings := showSettings s; aiSettings := aiSettings s |}.

Definition setModel (v : jsstring) (s : t) : t :=
  {| status := status s; prompt := prompt s;
     generatedCode := generatedCode s;
     tokenAnalytics := tokenAnalytics s; showAnalytics := showAnalytics s;
     runtimeError := runtimeError s; model := v;
     messages := messages s;
     currentGeneratedAppId := currentGeneratedAppId s;
     chatVisible := chatVisible s;
     refinementMessages := refinementMessages s;
     showSettings := showSettings s; aiSettings := aiSettings s |}.

Definition setMessages (v : list Message.t) (s : t) : t :=
  {| status := status s; prompt := prompt s;
     generatedCode := generatedCode s;
     tokenAnalytics := tokenAnalytics s; showAnalytics := showAnalytics s;
     runtimeError := runtimeError s; model := model s;
     messages := v;
     currentGeneratedAppId := currentGeneratedAppId s;
     chatVisible := chatVisible s;
     refinementMessages := refinementMessages s;
     showSettings := showSettings s; aiSettings := aiSettings s |}.

Definition setCurrentGeneratedAppId (v : option jsstring) (s : t) : t :=
  {| status := status s; prompt := prompt s;
     generatedCode := generatedCode s;
     tokenAnalytics := tokenAnalytics s; showAnalytics := showAnalytics s;
     runtimeError := runtimeError s; model := model s;
     messages := messages s;
     currentGeneratedAppId := v;
     chatVisible := chatVisible s;
     refinementMessages := refinementMessages s;
     showSettings := showSettings s; aiSettings := aiSettings s |}.

Definition setChatVisible (v : bool) (s : t) : t :=
  {| status := status s; prompt := prompt s;
     generatedCode := generatedCode s;
     tokenAnalytics := tokenAnalytics s; showAnalytics := showAnalytics s;
     runtimeError := runtimeError s; model := model s;
     messages := messages s;
     currentGeneratedAppId := currentGeneratedAppId s;
     chatVisible := v;
     refinementMessages := refinementMessages s;
     showSettings := showSettings s; aiSettings := aiSettings s |}.

Definition setRefinementMessages (v : list Message.t) (s : t) : t :=
  {| status := status s; prompt := prompt s;
     generatedCode := generatedCode s;
     tokenAnalytics := tokenAnalytics s; showAnalytics := showAnalytics s;
     runtimeError := runtimeError s; model := model s;
     messages := messages s;
     currentGeneratedAppId := currentGeneratedAppId s;
     chatVisible := chatVisible s;
     refinementMessages := v;
     showSettings := showSettings s; aiSettings := aiSettings s |}.

Definition setShowSettings (v : bool) (s : t) : t :=
  {| status := status s; prompt := prompt s;
     generatedCode := generatedCode s;
     tokenAnalytics := tokenAnalytics s; showAnalytics := showAnalytics s;
     runtimeError := runtimeError s; model := model s;
     messages := messages s;
     currentGeneratedAppId := currentGeneratedAppId s;
     chatVisible := chatVisible s;
     refinementMessages := refinementMessages s;
     showSettings := v; aiSettings := aiSettings s |}.

(** [setAISettings] is called with a value and with an updater function. *)
Definition setAISettings (f : AISettings.t -> AISettings.t) (s : t) : t :=
  {| status := status s; prompt := prompt s;
     generatedCode := generatedCode s;
     tokenAnalytics := tokenAnalytics s; showAnalytics := showAnalytics s;
     runtimeError := runtimeError s; model := model s;
     messages := messages s;
     currentGeneratedAppId := currentGeneratedAppId s;
     chatVisible := chatVisible s;
     refinementMessages := refinementMessages s;
     showSettings := showSettings s; aiSettings := f (aiSettings s) |}.

End Session.

(** ** The network, as the handlers see it *)

(** The body of a streamed response: the decoded text of each chunk that
    [reader.read()] delivers, in order, and how the stream ends: with
    [done], or with a rejected [read()].  A chunk here is the result of
    [TextDecoder.decode] on the bytes read. *)
Inductive StreamEnd := EndOfStream | ReadFails.

Module ReadableStream.
Record t := { chunks : list jsstring; ending : StreamEnd }.
End ReadableStream.

(** What a handler reads of the [Response] of a streaming endpoint. *)
Module StreamResponse.
Record t := { ok : bool; body : option ReadableStream.t }.
End StreamResponse.

(** What a handler reads of the [Response] of a JSON endpoint; [json] is
    [None] when [res.json()] rejects. *)
Module JsonResponse.
Record t (T : Type) := { ok : bool; json : option T }.
End JsonResponse.

(** The object the generated-app store answers with; only [id] is read,
    and it may be missing. *)
Module CreatedApp.
Record t := { id : option jsstring }.
End CreatedApp.

(** [await fetch(...)] either rejects or resolves to a response. *)
Inductive Fetched (R : Type) :=
| Rejects
| Resolves (res : R).
Arguments Rejects {R}.

(** The five POST requests, each with the fields of its JSON body. *)
Inductive Request :=
| post_generateCode (model : jsstring) (messages : list Message.t)
    (settings : AISettings.t)
| post_generateIdea (model : jsstring) (settings : AISettings.t)
| post_refinePrompt (model prompt : jsstring) (settings : AISettings.t)
| post_generated_apps (model prompt code : jsstring)
| post_tokenAnalytics (model prompt generatedCode : jsstring)
    (generatedAppId : option jsstring).

(** What a handler does besides setting state. *)
Inductive Effect :=
| PreventDefault
| Fetch (req : Request)
| ScrollTo
| ConsoleError (label : jsstring).

(** The requests among a handler's effects, in the order issued. *)
Fixpoint requests (trace : list Effect) : list Request :=
  match trace with
  | [] => []
  | Fetch req :: trace' => req :: requests trace'
  | _ :: trace' => requests trace'
  end.

(** ** Handler bodies: state, effects and exceptions

    An [async] function body runs on the component state and the effects
    issued so far, and either returns or throws.  State set before a
    [throw] stays set. *)
Module Async.

Inductive Completion (A : Type) :=
| Returned (a : A)
| Thrown.
Arguments Thrown {A}.

Definition World : Type := Session.t * list Effect.

Definition t (A : Type) : Type := World -> Completion A * World.

Definition ret {A : Type} (a : A) : t A := fun w => (Returned a, w).

Definition bind {A B : Type} (m : t A) (k : A -> t B) : t B :=
  fun w =>
    match m w with
    | (Returned a, w') => k a w'
    | (Thrown, w') => (Thrown, w')
    end.

(** [throw new Error(...)]. *)
Definition throw {A : Type} : t A := fun w => (Thrown, w).

(** A [useState] setter. *)
Definition set (f : Session.t -> Session.t) : t unit :=
  fun w => (Returned tt, (f (fst w), snd w)).

Definition emit (e : Effect) : t unit :=
  fun w => (Returned tt, (fst w, snd w ++ [e])).

(** [try { body } catch (error) { handler }]. *)
Definition try_catch {A : Type} (body handler : t A) : t A :=
  fun w =>
    match body w with
    | (Returned a, w') => (Returned a, w')
    | (Thrown, w') => handler w'
    end.

(** [try { body } finally { final }]: [final] runs either way; the
    completion is that of [body] unless [final] throws. *)
Definition try_finally {A : Type} (body : t A) (final : t unit) : t A :=
  fun w =>
    match body w with
    | (c, w') =>
        match final w' with
        | (Returned _, w'') => (c, w'')
        | (Thrown, w'') => (Thrown, w'')
        end
    end.

(** [await fetch(url, ...)], the network answering with [answer]. *)
Definition fetch {R : Type} (req : Request) (answer : Fetched R) : t R :=
  bind (emit (Fetch req)) (fun _ =>
    match answer with
    | Rejects => throw
    | Resolves res => ret res
    end).

(** [await res.json()]. *)
Definition json {T : Type} (res : JsonResponse.t T) : t T :=
  match JsonResponse.json res with
  | Some v => ret v
  | None => throw
  end.

End Async.

Notation "x <- m ;; k" := (Async.bind m (fun x => k))
  (at level 61, m at next level, right associativity).
Notation "m ;; k" := (Async.bind m (fun _ => k))
  (at level 61, right associativity).

(** An event handler is a closure over the state of the render that
    created it; dispatching it runs its body from that state with no effect
    issued yet, and yields the resulting state and effects. *)
Definition dispatch (handler : Session.t -> Async.t unit) (s : Session.t)
  : Session.t * list Effect :=
  snd (handler s (s, [])).

(** ** Provider defaults *)

Definition getDefaultSettings (provider : jsstring) : AISettings.t :=
  {| AISettings.temperature :=
       if Str.eqb provider (js "deepseek") then 0.0%float else 0.7%float;
     AISettings.maxTokens :=
       if Str.eqb provider (js "anthropic") then 200000
       else if Str.eqb provider (js "openai") then 64000
       else if Str.eqb provider (js "google") then 1000000
       else if Str.eqb provider (js "deepseek") then 32768
       else 200000;
     AISettings.topP := 1%float;
     AISettings.streamOutput := true;
     AISettings.frequencyPenalty := 0%float;
     AISettings.presencePenalty := 0%float |}.

(** The updater that the settings effect passes to [setAISettings]. *)
Definition settingsUpdate (currentProvider : jsstring) (prev : AISettings.t)
  : AISettings.t :=
  {| AISettings.temperature :=
       if Str.eqb currentProvider (js "deepseek") then 0.0%float
       else AISettings.temperature prev;
     AISettings.maxTokens :=
       if Str.eqb currentProvider (js "anthropic") then 200000
       else if Str.eqb currentProvider (js "openai") then 64000
       else if Str.eqb currentProvider (js "google") then 1000000
       else if Str.eqb currentProvider (js "deepseek") then 32768
       else AISettings.maxTokens prev;
     AISettings.topP := AISettings.topP prev;
     AISettings.streamOutput := AISettings.streamOutput prev;
     AISettings.frequencyPenalty := AISettings.frequencyPenalty prev;
     AISettings.presencePenalty := AISettings.presencePenalty prev |}.

(** The body of the effect "for updating settings when model changes". *)
Definition settingsEffect (currentProvider : jsstring) (s : Session.t)
  : Session.t :=
  if falsy currentProvider then s
  else Session.setAISettings (settingsUpdate currentProvider) s.

(** ** The streaming loops *)

(** The [while (true)] loop of [createApp] and [handleChatMessage]: every
    chunk is appended to [receivedData] and the displayed code is derived
    again from the whole buffer.  Returns the final [receivedData]. *)
Fixpoint stream_code (chunks : list jsstring) (ending : StreamEnd)
    (receivedData : jsstring) : Async.t jsstring :=
  match chunks with
  | [] =>
      match ending with
      | EndOfStream => Async.ret receivedData
      | ReadFails => Async.throw
      end
  | value :: chunks' =>
      let receivedData := receivedData ++ value in
      let cleanedData := removeCodeFormatting receivedData in
      Async.set (Session.setGeneratedCode cleanedData) ;;
      stream_code chunks' ending receivedData
  end.

(** The code on display after the chunks [chunks] have been read, when
    [receivedData] was buffered and [current] displayed before them. *)
Fixpoint displayed (chunks : list jsstring) (receivedData current : jsstring)
  : jsstring :=
  match chunks with
  | [] => current
  | value :: chunks' =>
      displayed chunks' (receivedData ++ value)
        (removeCodeFormatting (receivedData ++ value))
  end.

(** The loop of [generateAppIdea] and [refinePrompt]: it only appends. *)
Fixpoint stream_text (chunks : list jsstring) (ending : StreamEnd)
    (text : jsstring) : Async.t jsstring :=
  match chunks with
  | [] =>
      match ending with
      | EndOfStream => Async.ret text
      | ReadFails => Async.throw
      end
  | value :: chunks' => stream_text chunks' ending (text ++ value)
  end.

(** [if (!res.ok || !res.body) throw ...], then [res.body.getReader()]. *)
Definition getReader (res : StreamResponse.t) : Async.t ReadableStream.t :=
  if negb (StreamResponse.ok res) then Async.throw
  else match StreamResponse.body res with
       | None => Async.throw
       | Some body => Async.ret body
       end.

(** What the network answers during one run of a handler. *)
Module ChatEnv.
Record t := {
  generate : Fetched StreamResponse.t;
  analytics : Fetched (JsonResponse.t TokenAnalytics.t)
}.
End ChatEnv.

Module CreateEnv.
Record t := {
  generate : Fetched StreamResponse.t;
  persist : Fetched (JsonResponse.t CreatedApp.t);
  analytics : Fetched (JsonResponse.t TokenAnalytics.t)
}.
End CreateEnv.

Definition user (content : jsstring) : Message.t :=
  {| Message.role := js "user"; Message.content := content |}.

(** [if (currentGeneratedAppId)]: neither [null] nor the empty string. *)
Definition truthy_id (id : option jsstring) : bool :=
  match id with
  | Some (_ :: _) => true
  | _ => false
  end.

(** ** JavaScript numbers that hold integers

    A binary64 number has 53 significant bits.  An integer of magnitude
    below 2^53 is a binary64 value as it is; a larger one is rounded to the
    nearest value with 53 significant bits, a tie going to the even
    significand.  (The end of the binary64 range, near 2^1024, where a sum
    becomes [Infinity], is beyond every count considered and is not
    represented.) *)
Definition round_binary64 (z : Z) : Z :=
  let a := Z.abs z in
  if (a <? 2 ^ 53)%Z then z
  else
    let e := (Z.log2 a - 52)%Z in
    let q := Z.shiftr a e in
    let r := (a - Z.shiftl q e)%Z in
    let half := Z.shiftl 1 (e - 1) in
    let q' := if (r <? half)%Z then q
              else if (half <? r)%Z then (q + 1)%Z
              else if Z.even q then q else (q + 1)%Z in
    (Z.sgn z * Z.shiftl q' e)%Z.

(** [a + b] on two numbers that hold integers. *)
Definition js_add (a b : Z) : Z := round_binary64 (a + b).

(** [Number.isSafeInteger]: magnitude at most 2^53 - 1. *)
Definition safe_integer (z : Z) : bool := (Z.abs z <=? 2 ^ 53 - 1)%Z.

(** The binary64 number that holds the integer [z], for a [z] that is a
    binary64 value: built bit by bit, every step is then exact.  It is used
    to compare [js_add] with the addition of the kernel's binary64
    numbers. *)
Fixpoint float_of_positive (p : positive) : float :=
  match p with
  | xH => 1%float
  | xO p' => (2 * float_of_positive p')%float
  | xI p' => (2 * float_of_positive p' + 1)%float
  end.

Definition float_of_Z (z : Z) : float :=
  match z with
  | Z0 => 0%float
  | Zpos p => float_of_positive p
  | Zneg p => (- float_of_positive p)%float
  end.

Section Home.

(** [((n / d) * 100).toFixed(2)]: binary64 division and decimal
    formatting, taken as given. *)
Variable percent_toFixed2 : Z -> Z -> jsstring.

(** The provider groups computed from [AI_PROVIDERS] and
    [ENABLED_PROVIDERS] of [@/config/ai-providers]. *)
Variable groupedModels : list ModelGroup.t.

(** The updater that [updateTokenAnalytics] passes to
    [setTokenAnalytics]. *)
Definition mergeAnalytics (prevAnalytics : option CumulativeTokenAnalytics.t)
    (newAnalytics : TokenAnalytics.t) : CumulativeTokenAnalytics.t :=
  match prevAnalytics with
  | None =>
      {| CumulativeTokenAnalytics.modelName :=
           TokenAnalytics.modelName newAnalytics;
         CumulativeTokenAnalytics.provider :=
           TokenAnalytics.provider newAnalytics;
         CumulativeTokenAnalytics.promptTokens :=
           TokenAnalytics.promptTokens newAnalytics;
         CumulativeTokenAnalytics.responseTokens :=
           TokenAnalytics.responseTokens newAnalytics;
         CumulativeTokenAnalytics.totalTokens :=
           TokenAnalytics.totalTokens newAnalytics;
         CumulativeTokenAnalytics.maxTokens :=
           TokenAnalytics.maxTokens newAnalytics;
         CumulativeTokenAnalytics.cumulativePromptTokens :=
           TokenAnalytics.promptTokens newAnalytics;
         CumulativeTokenAnalytics.cumulativeResponseTokens :=
           TokenAnalytics.responseTokens newAnalytics;
         CumulativeTokenAnalytics.cumulativeTotalTokens :=
           TokenAnalytics.totalTokens newAnalytics;
         CumulativeTokenAnalytics.utilizationPercentage :=
           percent_toFixed2 (TokenAnalytics.totalTokens newAnalytics)
             (TokenAnalytics.maxTokens newAnalytics) |}
  | Some prevAnalytics =>
      let cumulativePromptTokens :=
        js_add
          (CumulativeTokenAnalytics.cumulativePromptTokens prevAnalytics)
          (TokenAnalytics.promptTokens newAnalytics) in
      let cumulativeResponseTokens :=
        js_add
          (CumulativeTokenAnalytics.cumulativeResponseTokens prevAnalytics)
          (TokenAnalytics.responseTokens newAnalytics) in
      let cumulativeTotalTokens :=
        js_add cumulativePromptTokens cumulativeResponseTokens in
      {| CumulativeTokenAnalytics.modelName :=
           TokenAnalytics.modelName newAnalytics;
         CumulativeTokenAnalytics.provider :=
           TokenAnalytics.provider newAnalytics;
         CumulativeTokenAnalytics.promptTokens :=
           TokenAnalytics.promptTokens newAnalytics;
         CumulativeTokenAnalytics.responseTokens :=
           TokenAnalytics.responseTokens newAnalytics;
         CumulativeTokenAnalytics.totalTokens :=
           TokenAnalytics.totalTokens newAnalytics;
         CumulativeTokenAnalytics.maxTokens :=
           TokenAnalytics.maxTokens newAnalytics;
         CumulativeTokenAnalytics.cumulativePromptTokens :=
           cumulativePromptTokens;
         CumulativeTokenAnalytics.cumulativeResponseTokens :=
           cumulativeResponseTokens;
         CumulativeTokenAnalytics.cumulativeTotalTokens :=
           cumulativeTotalTokens;
         CumulativeTokenAnalytics.utilizationPercentage :=
           percent_toFixed2 cumulativeTotalTokens
             (TokenAnalytics.maxTokens newAnalytics) |}
  end.

Definition updateTokenAnalytics (newAnalytics : TokenAnalytics.t)
  : Async.t unit :=
  Async.set (Session.setTokenAnalytics
               (fun prevAnalytics =>
                  Some (mergeAnalytics prevAnalytics newAnalytics))) ;;
  Async.set (Session.setShowAnalytics true).

(** [groupedModels[0]?.provider || "anthropic"]. *)
Definition initialProvider : jsstring :=
  match groupedModels with
  | g :: _ =>
      if falsy (ModelGroup.provider g) then js "anthropic"
      else ModelGroup.provider g
  | [] => js "anthropic"
  end.

(** The [useMemo] that derives the provider of the selected model. *)
Definition currentProvider (model : jsstring) : jsstring :=
  match
    find (fun g =>
            existsb (fun m => Str.eqb (ModelOption.value m) model)
              (ModelGroup.models g))
      groupedModels
  with
  | Some g =>
      if falsy (ModelGroup.provider g) then initialProvider
      else ModelGroup.provider g
  | None => initialProvider
  end.

(** The state of the first render: the initial value of every cell. *)
Definition initialSession : Session.t :=
  {| Session.status := initial;
     Session.prompt := [];
     Session.generatedCode := [];
     Session.tokenAnalytics := None;
     Session.showAnalytics := false;
     Session.runtimeError := None;
     Session.model :=
       match groupedModels with
       | g :: _ =>
           match ModelGroup.models g with
           | m :: _ => ModelOption.value m
           | [] => []
           end
       | [] => []
       end;
     Session.messages := [];
     Session.currentGeneratedAppId := None;
     Session.chatVisible := false;
     Session.refinementMessages := [];
     Session.showSettings := false;
     Session.aiSettings := getDefaultSettings initialProvider |}.

(** A render that follows a state change: the settings effect depends on
    [currentProvider] alone, so it runs again exactly when that value
    differs from the one of the previous render. *)
Definition rerender (before after : Session.t) : Session.t :=
  let provider := currentProvider (Session.model after) in
  if Str.eqb (currentProvider (Session.model before)) provider then after
  else settingsEffect provider after.

(** [onValueChange={setModel}] of the model selector, and the render that
    follows. *)
Definition onValueChange (model : jsstring) (s : Session.t) : Session.t :=
  rerender s (Session.setModel model s).

(** ** The event handlers *)

Definition handleChatMessage (env : ChatEnv.t) (message : jsstring)
    (s0 : Session.t) : Async.t unit :=
  if falsy (Session.generatedCode s0)
     || negb (status_eqb (Session.status s0) created)
  then Async.ret tt
  else
    Async.set (Session.setStatus updating) ;;
    Async.try_catch
      (let updatedMessages :=
         Session.refinementMessages s0 ++ [user message] in
       res <- Async.fetch
                (post_generateCode (Session.model s0)
                   ({| Message.role := js "system";
                       Message.content :=
                         js "Previous code: " ++ Session.generatedCode s0 |}
                    :: updatedMessages)
                   (Session.aiSettings s0))
                (ChatEnv.generate env) ;;
       reader <- getReader res ;;
       receivedData <- stream_code (ReadableStream.chunks reader)
                         (ReadableStream.ending reader) [] ;;
       Async.set (Session.setRefinementMessages updatedMessages) ;;
       Async.set (Session.setStatus created) ;;
       if truthy_id (Session.currentGeneratedAppId s0) then
         analyticsRes <- Async.fetch
                           (post_tokenAnalytics (Session.model s0) message
                              receivedData
                              (Session.currentGeneratedAppId s0))
                           (ChatEnv.analytics env) ;;
         if JsonResponse.ok analyticsRes then
           analytics <- Async.json analyticsRes ;;
           updateTokenAnalytics analytics
         else Async.ret tt
       else Async.ret tt)
      (Async.emit (ConsoleError (js "Error updating code:")) ;;
       Async.set (Session.setStatus created)).

Definition generateAppIdea (answer : Fetched StreamResponse.t)
    (s0 : Session.t) : Async.t unit :=
  if negb (status_eqb (Session.status s0) initial) then Async.ret tt
  else
    Async.set (Session.setStatus brainstorming) ;;
    Async.try_finally
      (Async.try_catch
         (res <- Async.fetch
                   (post_generateIdea (Session.model s0)
                      (Session.aiSettings s0))
                   answer ;;
          reader <- getReader res ;;
          newIdea <- stream_text (ReadableStream.chunks reader)
                       (ReadableStream.ending reader) [] ;;
          Async.set (Session.setPrompt (trim newIdea)))
         (Async.emit (ConsoleError (js "Error generating app idea:"))))
      (Async.set (Session.setStatus initial)).

Definition refinePrompt (answer : Fetched StreamResponse.t)
    (s0 : Session.t) : Async.t unit :=
  if falsy (Session.prompt s0)
     || negb (status_eqb (Session.status s0) initial)
  then Async.ret tt
  else
    Async.set (Session.setStatus refining) ;;
    Async.try_finally
      (Async.try_catch
         (res <- Async.fetch
                   (post_refinePrompt (Session.model s0) (Session.prompt s0)
                      (Session.aiSettings s0))
                   answer ;;
          reader <- getReader res ;;
          refinedPrompt <- stream_text (ReadableStream.chunks reader)
                             (ReadableStream.ending reader) [] ;;
          Async.set (Session.setPrompt (trim refinedPrompt)))
         (Async.emit (ConsoleError (js "Error refining prompt:"))))
      (Async.set (Session.setStatus initial)).

(** The state resets at the head of [createApp], from [setStatus] to
    [setMessages]. *)
Definition createApp_reset (s0 : Session.t) : Async.t unit :=
  Async.set (Session.setStatus creating) ;;
  Async.set (Session.setGeneratedCode []) ;;
  Async.set (Session.setShowAnalytics false) ;;
  Async.set (Session.setTokenAnalytics (fun _ => None)) ;;
  Async.set (Session.setChatVisible false) ;;
  Async.set (Session.setRefinementMessages []) ;;
  Async.set (Session.setMessages [user (Session.prompt s0)]).

Definition createApp (env : CreateEnv.t) (s0 : Session.t) : Async.t unit :=
  Async.emit PreventDefault ;;
  if falsy (Session.prompt s0)
     || negb (status_eqb (Session.status s0) initial)
  then Async.ret tt
  else
    createApp_reset s0 ;;
    Async.try_catch
      (res <- Async.fetch
                (post_generateCode (Session.model s0)
                   [user (Session.prompt s0)] (Session.aiSettings s0))
                (CreateEnv.generate env) ;;
       reader <- getReader res ;;
       receivedData <- stream_code (ReadableStream.chunks reader)
                         (ReadableStream.ending reader) [] ;;
       generatedAppResponse <-
         Async.fetch
           (post_generated_apps (Session.model s0) (Session.prompt s0)
              receivedData)
           (CreateEnv.persist env) ;;
       (if negb (JsonResponse.ok generatedAppResponse) then Async.throw
        else Async.ret tt) ;;
       generatedApp <- Async.json generatedAppResponse ;;
       Async.set (Session.setCurrentGeneratedAppId
                    (CreatedApp.id generatedApp)) ;;
       analyticsRes <- Async.fetch
                         (post_tokenAnalytics (Session.model s0)
                            (Session.prompt s0) receivedData
                            (CreatedApp.id generatedApp))
                         (CreateEnv.analytics env) ;;
       (if JsonResponse.ok analyticsRes then
          analytics <- Async.json analyticsRes ;;
          updateTokenAnalytics analytics
        else Async.ret tt) ;;
       Async.set (Session.setStatus created) ;;
       Async.set (Session.setChatVisible true) ;;
       Async.emit ScrollTo)
      (Async.emit (ConsoleError (js "Error generating code:")) ;;
       Async.set (Session.setStatus initial)).

Definition handleLoadGeneration (generation : SavedGeneration.t)
    (s0 : Session.t) : Async.t unit :=
  let generatedApp := SavedGeneration.generatedApp generation in
  Async.set (Session.setGeneratedCode (GeneratedApp.code generatedApp)) ;;
  Async.set (Session.setPrompt (GeneratedApp.prompt generatedApp)) ;;
  Async.set (Session.setModel (GeneratedApp.model generatedApp)) ;;
  Async.set (Session.setAISettings (fun _ => Session.aiSettings s0)) ;;
  Async.set (Session.setCurrentGeneratedAppId
               (Some (GeneratedApp.id generatedApp))) ;;
  Async.set (Session.setStatus created) ;;
  Async.set (Session.setChatVisible true) ;;
  Async.emit ScrollTo.

End Home.

(** ** The rest of the component: derived values and inline handlers *)

(** [let loading = status !== "initial" && status !== "created"]. *)
Definition loading (s : Session.t) : bool :=
  negb (status_eqb (Session.status s) initial)
  && negb (status_eqb (Session.status s) created).

(** [disabled={loading}] of the idea button, the text area and the model
    selector, and [disabled={loading || !prompt}] of the refine and submit
    buttons. *)
Definition idea_disabled (s : Session.t) : bool := loading s.

Definition submit_disabled (s : Session.t) : bool :=
  loading s || falsy (Session.prompt s).

(** What the returned tree shows: the spinner under
    [status === "creating"], the code viewer under [status === "created"],
    and inside it the error fixer under a truthy [runtimeError]. *)
Definition spinner_shown (s : Session.t) : bool :=
  status_eqb (Session.status s) creating.

Definition viewer_shown (s : Session.t) : bool :=
  status_eqb (Session.status s) created.

Definition fixer_shown (s : Session.t) : bool :=
  viewer_shown s
  && match Session.runtimeError s with
     | Some (_ :: _) => true
     | _ => false
     end.

(** The arrow functions passed to the elements of the returned tree. *)

(** [onChange={(e) => setPrompt(e.target.value)}]. *)
Definition onChange (value : jsstring) (s0 : Session.t) : Async.t unit :=
  Async.set (Session.setPrompt value).

(** [onClick={() => setShowSettings(!showSettings)}]. *)
Definition onClickSettings (s0 : Session.t) : Async.t unit :=
  Async.set (Session.setShowSettings (negb (Session.showSettings s0))).

(** [onClose={() => setShowSettings(false)}]. *)
Definition onClose (s0 : Session.t) : Async.t unit :=
  Async.set (Session.setShowSettings false).

(** [onSettingsChange={setAISettings}]. *)
Definition onSettingsChange (settings : AISettings.t) (s0 : Session.t)
  : Async.t unit :=
  Async.set (Session.setAISettings (fun _ => settings)).

(** [onError] of the code viewer; its [console.log] line is not
    recorded. *)
Definition onError (error : jsstring) (s0 : Session.t) : Async.t unit :=
  Async.set (Session.setRuntimeError (Some error)).

(** [onFixComplete] of the error fixer. *)
Definition onFixComplete (fixedCode : jsstring) (s0 : Session.t)
  : Async.t unit :=
  Async.set (Session.setGeneratedCode fixedCode) ;;
  Async.set (Session.setRuntimeError None).

(** [onUpdateCode={(newCode) => setGeneratedCode(newCode)}]. *)
Definition onUpdateCode (newCode : jsstring) (s0 : Session.t)
  : Async.t unit :=
  Async.set (Session.setGeneratedCode newCode).

(** The events the component reacts to, each with what the network
    answers during it.  [ChatMessage] stands for a call of
    [handleChatMessage], which [Home] defines but hands to no element. *)
Inductive Event :=
| Submit (env : CreateEnv.t)
| ClickIdea (answer : Fetched StreamResponse.t)
| ClickRefine (answer : Fetched StreamResponse.t)
| ChatMessage (env : ChatEnv.t) (message : jsstring)
| LoadGeneration (generation : SavedGeneration.t)
| ChangePrompt (value : jsstring)
| SelectModel (model : jsstring)
| ClickSettings
| CloseSettings
| ChangeSettings (settings : AISettings.t)
| RuntimeError (error : jsstring)
| FixComplete (fixedCode : jsstring)
| UpdateCode (newCode : jsstring)
| AnalyticsUpdate (analytics : TokenAnalytics.t).

Section Component.

Variable percent_toFixed2 : Z -> Z -> jsstring.
Variable groupedModels : list ModelGroup.t.

(** The handler an event is wired to. *)
Definition handler (e : Event) : Session.t -> Async.t unit :=
  match e with
  | Submit env => createApp percent_toFixed2 env
  | ClickIdea answer => generateAppIdea answer
  | ClickRefine answer => refinePrompt answer
  | ChatMessage env message =>
      handleChatMessage percent_toFixed2 env message
  | LoadGeneration generation => handleLoadGeneration generation
  | ChangePrompt value => onChange value
  | SelectModel model => fun _ => Async.set (Session.setModel model)
  | ClickSettings => onClickSettings
  | CloseSettings => onClose
  | ChangeSettings settings => onSettingsChange settings
  | RuntimeError error => onError error
  | FixComplete fixedCode => onFixComplete fixedCode
  | UpdateCode newCode => onUpdateCode newCode
  | AnalyticsUpdate analytics =>
      fun _ => updateTokenAnalytics percent_toFixed2 analytics
  end.

(** One event: its handler runs, then the component renders again. *)
Definition step (s : Session.t) (e : Event) : Session.t :=
  rerender groupedModels s (fst (dispatch (handler e) s)).

(** A sequence of events, handled one after the other: every handler has
    run to its end before the next event arrives.  (In the component a
    handler is suspended at each [await] and another event can be handled
    meanwhile; such overlaps are not represented here.) *)
Definition run_events (events : list Event) (s : Session.t) : Session.t :=
  fold_left step events s.

(** The first render and its effects: the settings effect runs once on
    mount. *)
Definition mounted : Session.t :=
  settingsEffect
    (currentProvider groupedModels
       (Session.model (initialSession groupedModels)))
    (initialSession groupedModels).

(** Successive analytics updates, starting from the record [first]
    produces. *)
Definition mergeAll (first : TokenAnalytics.t)
    (later : list TokenAnalytics.t) : CumulativeTokenAnalytics.t :=
  fold_left (fun acc a => mergeAnalytics percent_toFixed2 (Some acc) a)
    later (mergeAnalytics percent_toFixed2 None first).

End Component.

(** Whether the prompt and response counts of an exchange are not
    negative. *)
Definition counts_nonneg (a : TokenAnalytics.t) : bool :=
  (0 <=? TokenAnalytics.promptTokens a)%Z
  && (0 <=? TokenAnalytics.responseTokens a)%Z.

(** Sum of one count over a list of exchanges. *)
Definition sum_of (count : TokenAnalytics.t -> Z)
    (xs : list TokenAnalytics.t) : Z :=
  fold_right (fun a acc => (count a + acc)%Z) 0%Z xs.

(** Whether neither end of [s] is white space. *)
Definition ends_trimmed (s : jsstring) : bool :=
  match s with
  | [] => true
  | c :: _ => negb (is_white_space c)
  end
  && match rev s with
     | [] => true
     | c :: _ => negb (is_white_space c)
     end.

(** Whether every message of a history has the role [user]. *)
Definition user_only (history : list Message.t) : bool :=
  forallb (fun m => Str.eqb (Message.role m) (js "user")) history.

(** The chunks a generation answer delivers before it ends or fails:
    none when there is no stream to read. *)
Definition delivered (answer : Fetched StreamResponse.t) : list jsstring :=
  match answer with
  | Resolves res =>
      if StreamResponse.ok res then
        match StreamResponse.body res with
        | Some body => ReadableStream.chunks body
        | None => []
        end
      else []
  | Rejects => []
  end.

(** Whether a cell that may be [null] holds a value. *)
Definition present {A : Type} (o : option A) : bool :=
  match o with
  | Some _ => true
  | None => false
  end.

(** What holds of the session when no handler is running: the status is
    not a transient one, the analytics panel is shown exactly when there
    are analytics, and the refinement history holds user messages only. *)
Definition at_rest (s : Session.t) : bool :=
  negb (loading s)
  && Bool.eqb (Session.showAnalytics s)
       (present (Session.tokenAnalytics s))
  && user_only (Session.refinementMessages s).

(** The system message that carries the code on display. *)
Definition previous_code (s : Session.t) : Message.t :=
  {| Message.role := js "system";
     Message.content := js "Previous code: " ++ Session.generatedCode s |}.

(** A saved generation to load. *)
Definition saved_counter : SavedGeneration.t :=
  {| SavedGeneration.id := js "gen-7";
     SavedGeneration.title := js "Counter";
     SavedGeneration.description := None;
     SavedGeneration.createdAt := js "2025-01-01T00:00:00.000Z";
     SavedGeneration.generatedApp :=
       {| GeneratedApp.id := js "app-7";
          GeneratedApp.code := js "export default function Counter(){}";
          GeneratedApp.model := js "gpt-4o";
          GeneratedApp.prompt := js "A counter";
          GeneratedApp.analytics := None |} |}.

(** ** Vocabulary and sample data for the statements *)

(** The chunks of a generation answer whose stream runs to its end:
    the fetch resolves, the response is OK with a body, and no read
    fails.  [None] for every answer that fails before that. *)
Definition completed_stream (answer : Fetched StreamResponse.t)
  : option (list jsstring) :=
  match answer with
  | Resolves res =>
      if StreamResponse.ok res then
        match StreamResponse.body res with
        | Some body =>
            match ReadableStream.ending body with
            | EndOfStream => Some (ReadableStream.chunks body)
            | ReadFails => None
            end
        | None => None
        end
      else None
  | Rejects => None
  end.

(** A streaming answer that delivers [chunks] and ends normally. *)
Definition streams (chunks : list jsstring) : Fetched StreamResponse.t :=
  Resolves
    {| StreamResponse.ok := true;
       StreamResponse.body :=
         Some {| ReadableStream.chunks := chunks;
                 ReadableStream.ending := EndOfStream |} |}.

(** The identifier a persistence answer yields, when the call succeeds:
    the fetch resolves, the response is OK and its JSON parses. *)
Definition persisted_id (answer : Fetched (JsonResponse.t CreatedApp.t))
  : option (option jsstring) :=
  match answer with
  | Resolves res =>
      if JsonResponse.ok res then
        match JsonResponse.json res with
        | Some app => Some (CreatedApp.id app)
        | None => None
        end
      else None
  | Rejects => None
  end.

(** The [code] field of the first request to the generated-app store. *)
Fixpoint persisted_code (reqs : list Request) : option jsstring :=
  match reqs with
  | [] => None
  | post_generated_apps _ _ code :: _ => Some code
  | _ :: reqs' => persisted_code reqs'
  end.


(** The four providers with a ceiling of their own in the effect. *)
Definition named_provider (p : jsstring) : bool :=
  Str.eqb p (js "anthropic") || Str.eqb p (js "openai")
  || Str.eqb p (js "google") || Str.eqb p (js "deepseek").

(** The analytics of one exchange with the given three counts. *)
Definition exchange (promptTokens responseTokens totalTokens : Z)
  : TokenAnalytics.t :=
  {| TokenAnalytics.modelName := js "gpt-4o";
     TokenAnalytics.provider := js "openai";
     TokenAnalytics.promptTokens := promptTokens;
     TokenAnalytics.responseTokens := responseTokens;
     TokenAnalytics.totalTokens := totalTokens;
     TokenAnalytics.maxTokens := 64000;
     TokenAnalytics.utilizationPercentage := js "0.00" |}.

(** A configuration with two providers, and the session of its first
    render: the deepseek model is selected, with deepseek's defaults. *)
Definition demo_groups : list ModelGroup.t :=
  [ {| ModelGroup.provider := js "deepseek";
       ModelGroup.models :=
         [ {| ModelOption.label := js "DeepSeek Chat";
              ModelOption.value := js "deepseek-chat" |} ] |};
    {| ModelGroup.provider := js "openai";
       ModelGroup.models :=
         [ {| ModelOption.label := js "GPT-4o";
              ModelOption.value := js "gpt-4o" |} ] |} ].

Definition demo_session : Session.t := initialSession demo_groups.

(** The demo session with a prompt typed in. *)
Definition prompted_session : Session.t :=
  Session.setPrompt (js "Build me a calculator app") demo_session.

(** The same while a creation is in flight. *)
Definition busy_session : Session.t :=
  Session.setStatus creating prompted_session.

(** A persistence answer that succeeds with identifier [id]. *)
Definition persists (id : jsstring)
  : Fetched (JsonResponse.t CreatedApp.t) :=
  Resolves {| JsonResponse.ok := true;
              JsonResponse.json := Some {| CreatedApp.id := Some id |} |}.

(** The identifier that a run of [createApp] gets from the store: the
    one of the persistence answer, provided the generation stream ran to
    its end so that the store was called at all. *)
Definition captured_id (env : CreateEnv.t) : option (option jsstring) :=
  match completed_stream (CreateEnv.generate env) with
  | Some _ => persisted_id (CreateEnv.persist env)
  | None => None
  end.

(** A session in which an earlier run was persisted as [app-1]. *)
Definition persisted_session : Session.t :=
  Session.setCurrentGeneratedAppId (Some (js "app-1")) prompted_session.

(** A session after a successful creation: code on display, status
    [created]. *)
Definition created_session : Session.t :=
  Session.setStatus created
    (Session.setGeneratedCode (js "export default function App(){}")
       persisted_session).

(** A fenced answer that arrives in two chunks. *)
Definition fenced_chunks : list jsstring :=
  [ fence ++ js "tsx" ++ [newline] ++ js "export default ";
    js "function App(){}" ++ [newline] ++ fence ].

(** * Properties *)

Unset Implicit Arguments.

(** ** Strings, the fence pattern and [trim] *)

Module StrFacts.

Lemma eqb_eq (a b : jsstring) : Str.eqb a b = true <-> a = b.
Proof.
  revert b; induction a as [|x a IH]; intros [|y b]; simpl;
    try (split; [discriminate || reflexivity | discriminate || reflexivity]).
  rewrite andb_true_iff, N.eqb_eq, IH. split.
  - intros [-> ->]. reflexivity.
  - intros H; inversion H; auto.
Qed.

Lemma eqb_neq (a b : jsstring) : Str.eqb a b = false <-> a <> b.
Proof.
  rewrite <- eqb_eq. destruct (Str.eqb a b); split; congruence.
Qed.

Lemma strip_prefix_app (p r : jsstring) : strip_prefix p (p ++ r) = Some r.
Proof.
  induction p as [|a p IH]; simpl; [reflexivity|].
  rewrite N.eqb_refl. exact IH.
Qed.


Lemma match_at_other (c : char16) (s : jsstring) :
  N.eqb backtick c = false -> match_at (c :: s) = None.
Proof.
  intros H. unfold match_at, fence. cbn [strip_prefix]. rewrite H.
  reflexivity.
Qed.

Lemma replace_fences_match (s cap rest : jsstring) :
  match_at s = Some (cap, rest) ->
  replace_fences s = cap ++ replace_fences rest.
Proof.
  destruct s as [|c s]; [discriminate|]. intros H.
  simp replace_fences.
  destruct (inspect (match_at (c :: s))) as [[[cap' rest']|] e];
    simp replace_fences; congruence.
Qed.

Lemma replace_fences_copy (c : char16) (s : jsstring) :
  match_at (c :: s) = None ->
  replace_fences (c :: s) = c :: replace_fences s.
Proof.
  intros H. simp replace_fences.
  destruct (inspect (match_at (c :: s))) as [[[cap' rest']|] e];
    simp replace_fences; congruence.
Qed.



(** Whether a fence starts at the head of [x ++ ...] depends on the first
    three code units only. *)
Lemma strip_prefix_fence_head (c : char16) (x post : jsstring) :
  strip_prefix fence (c :: x ++ [backtick; backtick]) = None ->
  strip_prefix fence (c :: x ++ fence ++ post) = None.
Proof.
  unfold fence. destruct x as [|d [|e x]]; cbn [strip_prefix app];
    repeat match goal with
           | |- context [N.eqb ?a ?b] => destruct (N.eqb a b)
           end; congruence.
Qed.

Lemma strip_prefix_some (p s r : jsstring) :
  strip_prefix p s = Some r -> s = p ++ r.
Proof.
  revert s; induction p as [|a p IH]; intros s; simpl.
  - intros H; inversion H; reflexivity.
  - destruct s as [|b s]; [discriminate|].
    destruct (N.eqb_spec a b) as [<-|]; [|discriminate].
    intros H. rewrite (IH _ H). reflexivity.
Qed.

Lemma contains_fence_unfold (s : jsstring) :
  contains_fence s =
  match strip_prefix fence s with
  | Some _ => true
  | None => match s with [] => false | _ :: s' => contains_fence s' end
  end.
Proof. destruct s; reflexivity. Qed.

(** [contains_fence] decides whether three backticks in a row occur. *)
Lemma contains_fence_occurs (s : jsstring) :
  contains_fence s = true <-> exists a b, s = a ++ fence ++ b.
Proof.
  split.
  - induction s as [|c s IH]; rewrite contains_fence_unfold.
    + simpl. discriminate.
    + destruct (strip_prefix fence (c :: s)) as [r|] eqn:E.
      * intros _. exists [], r. exact (strip_prefix_some _ _ _ E).
      * intros H. destruct (IH H) as (a & b & ->).
        exists (c :: a), b. reflexivity.
  - intros (a & b & ->). induction a as [|c a IH].
    + change ([] ++ fence ++ b) with (fence ++ b).
      rewrite contains_fence_unfold, strip_prefix_app. reflexivity.
    + change ((c :: a) ++ fence ++ b) with (c :: a ++ fence ++ b).
      rewrite contains_fence_unfold.
      destruct (strip_prefix fence (c :: a ++ fence ++ b));
        [reflexivity | exact IH].
Qed.

(** The lazy group stops at the closing fence when no fence starts inside
    the inner content. *)
Lemma lazy_until_fence_inner (inner post : jsstring) :
  contains_fence (inner ++ [backtick; backtick]) = false ->
  lazy_until_fence (inner ++ fence ++ post) = Some (inner, post).
Proof.
  induction inner as [|c x IH]; intros H.
  - reflexivity.
  - change ((c :: x) ++ fence ++ post) with (c :: x ++ fence ++ post).
    change ((c :: x) ++ [backtick; backtick])
      with (c :: x ++ [backtick; backtick]) in H.
    rewrite lazy_until_fence_unfold.
    destruct (strip_prefix fence (c :: x ++ [backtick; backtick])) eqn:E.
    + simpl in H. unfold fence in E. simpl in E. rewrite E in H.
      discriminate.
    + rewrite (strip_prefix_fence_head _ _ _ E).
      assert (Hx : contains_fence (x ++ [backtick; backtick]) = false).
      { simpl in H. unfold fence in E. simpl in E. rewrite E in H.
        exact H. }
      rewrite (IH Hx). reflexivity.
Qed.

(** The pattern matches a block tagged with one of its three languages, or
    untagged, and captures the inner content. *)
Lemma match_at_fenced (tag inner post : jsstring) :
  In tag (language_tags ++ [[]]) ->
  contains_fence (inner ++ [backtick; backtick]) = false ->
  match_at (fenced tag inner ++ post) = Some (inner, post).
Proof.
  intros Htag Hinner. unfold fenced, match_at.
  rewrite <- !app_assoc. rewrite strip_prefix_app.
  pose proof (lazy_until_fence_inner inner post Hinner) as L.
  simpl in Htag.
  destruct Htag as [<-|[<-|[<-|[<-|[]]]]]; cbn;
    rewrite <- ?app_assoc; rewrite L; reflexivity.
Qed.

Lemma trimStart_blank_app (pre s : jsstring) :
  blank pre = true -> trimStart (pre ++ s) = trimStart s.
Proof.
  induction pre as [|c pre IH]; simpl; [reflexivity|].
  rewrite andb_true_iff. intros [-> Hpre]. exact (IH Hpre).
Qed.

Lemma trimStart_nil_blank (s : jsstring) :
  trimStart s = [] -> blank s = true.
Proof.
  induction s as [|c s IH]; simpl; [reflexivity|].
  destruct (is_white_space c); [exact IH | discriminate].
Qed.

Lemma trimStart_app (a b : jsstring) :
  trimStart a <> [] -> trimStart (a ++ b) = trimStart a ++ b.
Proof.
  induction a as [|c a IH]; simpl; [congruence|].
  destruct (is_white_space c); [exact IH | reflexivity].
Qed.






(** Text in which no code unit is a backtick goes through the replacement
    untouched: without a fence the result is just the trimmed buffer. *)
Lemma replace_fences_no_backtick (s : jsstring) :
  forallb (fun c => negb (N.eqb backtick c)) s = true ->
  replace_fences s = s.
Proof.
  induction s as [|c s IH]; simpl; [intros _; now simp replace_fences|].
  rewrite andb_true_iff, negb_true_iff. intros [Hc Hs].
  rewrite replace_fences_copy by (apply match_at_other, Hc).
  rewrite (IH Hs). reflexivity.
Qed.

End StrFacts.

(** ** The streaming loops *)

Lemma setGeneratedCode_same (s : Session.t) :
  Session.setGeneratedCode (Session.generatedCode s) s = s.
Proof. destruct s; reflexivity. Qed.

(** [stream_code] leaves everything but the displayed code alone, issues
    no effect, and returns the concatenated chunks unless a read fails. *)
Lemma stream_code_run (chunks : list jsstring) (ending : StreamEnd)
    (receivedData : jsstring) (s : Session.t) (trace : list Effect) :
  stream_code chunks ending receivedData (s, trace) =
  (match ending with
   | EndOfStream => Async.Returned (receivedData ++ concat chunks)
   | ReadFails => Async.Thrown
   end,
   (Session.setGeneratedCode
      (displayed chunks receivedData (Session.generatedCode s)) s,
    trace)).
Proof.
  revert receivedData s; induction chunks as [|value chunks IH];
    intros receivedData s.
  - simpl. rewrite setGeneratedCode_same, app_nil_r.
    destruct ending; reflexivity.
  - cbn [stream_code displayed concat]. unfold Async.bind at 1.
    cbn [Async.set fst snd]. rewrite IH, <- app_assoc. reflexivity.
Qed.

Lemma stream_text_run (chunks : list jsstring) (ending : StreamEnd)
    (text : jsstring) (w : Async.World) :
  stream_text chunks ending text w =
  (match ending with
   | EndOfStream => Async.Returned (text ++ concat chunks)
   | ReadFails => Async.Thrown
   end, w).
Proof.
  revert text; induction chunks as [|value chunks IH]; intros text.
  - simpl. rewrite app_nil_r. destruct ending; reflexivity.
  - simpl. rewrite IH, <- app_assoc. reflexivity.
Qed.

(** Once a chunk has been read, the display is the fence-stripped whole
    buffer, wherever the chunk boundaries fall. *)
Lemma displayed_cons (value : jsstring) (chunks : list jsstring)
    (receivedData current : jsstring) :
  displayed (value :: chunks) receivedData current =
  removeCodeFormatting (receivedData ++ concat (value :: chunks)).
Proof.
  revert value receivedData current; induction chunks as [|v chunks IH];
    intros value receivedData current.
  - simpl. rewrite app_nil_r. reflexivity.
  - change (displayed (value :: v :: chunks) receivedData current)
      with (displayed (v :: chunks) (receivedData ++ value)
              (removeCodeFormatting (receivedData ++ value))).
    rewrite IH. simpl. rewrite <- app_assoc. reflexivity.
Qed.

(** ** Analytics merge *)

Lemma mergeAnalytics_first (percent : Z -> Z -> jsstring)
    (A : TokenAnalytics.t) :
  let c := mergeAnalytics percent None A in
  CumulativeTokenAnalytics.cumulativePromptTokens c
    = TokenAnalytics.promptTokens A
  /\ CumulativeTokenAnalytics.cumulativeResponseTokens c
    = TokenAnalytics.responseTokens A
  /\ CumulativeTokenAnalytics.cumulativeTotalTokens c
    = TokenAnalytics.totalTokens A.
Proof. simpl. auto. Qed.

(** Within the safe-integer range the binary64 sum is the exact sum. *)
Lemma round_binary64_safe (z : Z) :
  safe_integer z = true -> round_binary64 z = z.
Proof.
  unfold safe_integer, round_binary64. intros H.
  apply Z.leb_le in H.
  destruct (Z.ltb_spec (Z.abs z) (2 ^ 53)) as [_|L]; [reflexivity|].
  change (2 ^ 53)%Z with 9007199254740992%Z in *. lia.
Qed.

Lemma js_add_safe (a b : Z) :
  safe_integer (a + b) = true -> js_add a b = (a + b)%Z.
Proof. apply round_binary64_safe. Qed.

(** [js_add] against the addition of the kernel's binary64 numbers, on
    operands below and above 2^53, with sums that fall between two
    binary64 values, on ties and off them, of both signs. *)
Example js_add_is_binary64_addition :
  forallb
    (fun ab =>
       PrimFloat.eqb (float_of_Z (fst ab) + float_of_Z (snd ab))%float
         (float_of_Z (js_add (fst ab) (snd ab))))
    [ (0, 0); (12, 30); (-5, 3); (2 ^ 53 - 1, 0); (2 ^ 53 - 1, 1);
      (2 ^ 53, 1); (2 ^ 53, 2); (2 ^ 53, 3); (2 ^ 53 + 2, 1);
      (2 ^ 53 + 2, 2); (2 ^ 53 + 2, 3); (2 ^ 53 + 4, 1); (2 ^ 54, 1);
      (2 ^ 54, 2); (2 ^ 54, 3); (2 ^ 54, 5); (2 ^ 54, 6); (2 ^ 54, 7);
      (- 2 ^ 53, -1); (- 2 ^ 53 - 2, -1); (2 ^ 53, 2 ^ 53);
      (2 ^ 53 + 2, 2 ^ 53 + 4); (2 ^ 60, 127); (2 ^ 60, 128);
      (2 ^ 60, 129); (2 ^ 60, 384); (2 ^ 100, 2 ^ 47);
      (2 ^ 100, 2 ^ 47 + 1); (2 ^ 100, 2 ^ 48 + 2 ^ 47);
      (2 ^ 64 - 2 ^ 11, 2 ^ 10 - 1); (2 ^ 64 - 2 ^ 11, 2 ^ 10);
      (2 ^ 64 - 2 ^ 11, 2 ^ 10 + 1) ]%Z
  = true.
Proof. vm_compute. reflexivity. Qed.

(** After two merges the cumulative total is built from the prompt and
    response counts alone; the [totalTokens] fields play no part. *)
Lemma mergeAnalytics_twice_components (percent : Z -> Z -> jsstring)
    (A B : TokenAnalytics.t) :
  CumulativeTokenAnalytics.cumulativeTotalTokens
    (mergeAnalytics percent (Some (mergeAnalytics percent None A)) B)
  = js_add
      (js_add (TokenAnalytics.promptTokens A) (TokenAnalytics.promptTokens B))
      (js_add (TokenAnalytics.responseTokens A)
         (TokenAnalytics.responseTokens B)).
Proof. reflexivity. Qed.

(** Two analytics updates on a session without analytics store the merge
    of the merge, and reveal the panel. *)
Lemma updateTokenAnalytics_twice (percent : Z -> Z -> jsstring)
    (A B : TokenAnalytics.t) (s : Session.t) (trace : list Effect) :
  Session.tokenAnalytics s = None ->
  let final :=
    fst (snd ((updateTokenAnalytics percent A ;;
               updateTokenAnalytics percent B) (s, trace))) in
  Session.tokenAnalytics final
  = Some (mergeAnalytics percent (Some (mergeAnalytics percent None A)) B)
  /\ Session.showAnalytics final = true.
Proof. intros H. simpl. rewrite H. split; reflexivity. Qed.

(** C1, as amended: when the total of each record is the sum of its prompt
    and response counts, and the three sums formed - of the prompt counts,
    of the response counts, of the totals - are safe integers (magnitude
    at most 2^53 - 1), merging [A] into an empty cumulative record and
    then merging [B] gives a cumulative total of exactly
    [A.totalTokens + B.totalTokens], the JavaScript sum and the integer
    sum being the same. *)
Theorem merge_twice_total (percent : Z -> Z -> jsstring)
    (A B : TokenAnalytics.t) :
  TokenAnalytics.totalTokens A
    = (TokenAnalytics.promptTokens A + TokenAnalytics.responseTokens A)%Z ->
  TokenAnalytics.totalTokens B
    = (TokenAnalytics.promptTokens B + TokenAnalytics.responseTokens B)%Z ->
  safe_integer
    (TokenAnalytics.promptTokens A + TokenAnalytics.promptTokens B) = true ->
  safe_integer
    (TokenAnalytics.responseTokens A + TokenAnalytics.responseTokens B)
    = true ->
  safe_integer
    (TokenAnalytics.totalTokens A + TokenAnalytics.totalTokens B) = true ->
  CumulativeTokenAnalytics.cumulativeTotalTokens
    (mergeAnalytics percent (Some (mergeAnalytics percent None A)) B)
  = js_add (TokenAnalytics.totalTokens A) (TokenAnalytics.totalTokens B)
  /\ js_add (TokenAnalytics.totalTokens A) (TokenAnalytics.totalTokens B)
     = (TokenAnalytics.totalTokens A + TokenAnalytics.totalTokens B)%Z.
Proof.
  intros HA HB Hp Hr Ht.
  rewrite mergeAnalytics_twice_components.
  rewrite (js_add_safe _ _ Hp), (js_add_safe _ _ Hr), (js_add_safe _ _ Ht).
  split; [|reflexivity]. unfold js_add.
  replace (TokenAnalytics.promptTokens A + TokenAnalytics.promptTokens B
           + (TokenAnalytics.responseTokens A
              + TokenAnalytics.responseTokens B))%Z
    with (TokenAnalytics.totalTokens A + TokenAnalytics.totalTokens B)%Z
    by (rewrite HA, HB; lia).
  apply (round_binary64_safe _ Ht).
Qed.

Lemma merge_twice_total_witness :
  CumulativeTokenAnalytics.cumulativeTotalTokens
    (mergeAnalytics (fun _ _ => [])
       (Some (mergeAnalytics (fun _ _ => []) None (exchange 12 30 42)))
       (exchange 5 8 13))
  = 55%Z.
Proof.
  destruct (merge_twice_total (fun _ _ => []) (exchange 12 30 42)
              (exchange 5 8 13) eq_refl eq_refl eq_refl eq_refl eq_refl)
    as [Hsum Hexact].
  rewrite Hsum. exact Hexact.
Defined.

(** C1 as written fails: a record whose total exceeds prompt plus response
    (12 + 30 reported as 45) is merged with its components only. *)
Lemma merge_twice_total_counterexample :
  CumulativeTokenAnalytics.cumulativeTotalTokens
    (mergeAnalytics (fun _ _ => [])
       (Some (mergeAnalytics (fun _ _ => []) None (exchange 12 30 45)))
       (exchange 5 8 13))
  <> (TokenAnalytics.totalTokens (exchange 12 30 45)
      + TokenAnalytics.totalTokens (exchange 5 8 13))%Z.
Proof. vm_compute. discriminate. Qed.

(** It also fails beyond the safe-integer range, for records whose totals
    are prompt plus response: with prompt counts 2^53 and 1 the sum
    2^53 + 1 is not a binary64 value and is rounded to 2^53, so the
    cumulative total is 2^53 + 2, which is neither the JavaScript sum of
    the two totals (2^53 + 4) nor their integer sum (2^53 + 3). *)
Lemma merge_twice_total_rounding :
  let A := exchange (2 ^ 53) 2 (2 ^ 53 + 2) in
  let B := exchange 1 0 1 in
  let total :=
    CumulativeTokenAnalytics.cumulativeTotalTokens
      (mergeAnalytics (fun _ _ => [])
         (Some (mergeAnalytics (fun _ _ => []) None A)) B) in
  TokenAnalytics.totalTokens A
    = js_add (TokenAnalytics.promptTokens A) (TokenAnalytics.responseTokens A)
  /\ TokenAnalytics.totalTokens B
     = js_add (TokenAnalytics.promptTokens B)
         (TokenAnalytics.responseTokens B)
  /\ total = 9007199254740994%Z
  /\ js_add (TokenAnalytics.totalTokens A) (TokenAnalytics.totalTokens B)
     = 9007199254740996%Z
  /\ (TokenAnalytics.totalTokens A + TokenAnalytics.totalTokens B
      = 9007199254740995)%Z.
Proof. vm_compute. repeat split. Qed.

(** ** Provider-dependent settings *)

Section ProviderSettings.

Variable groupedModels : list ModelGroup.t.

Lemma initialProvider_truthy : falsy (initialProvider groupedModels) = false.
Proof.
  unfold initialProvider. destruct groupedModels as [|g ?]; [reflexivity|].
  destruct (falsy (ModelGroup.provider g)) eqn:E; [reflexivity | exact E].
Qed.

Lemma currentProvider_truthy (model : jsstring) :
  falsy (currentProvider groupedModels model) = false.
Proof.
  unfold currentProvider.
  destruct (find _ groupedModels) as [g|]; [|apply initialProvider_truthy].
  destruct (falsy (ModelGroup.provider g)) eqn:E;
    [apply initialProvider_truthy | exact E].
Qed.

(** Selecting a model of another provider runs the settings effect on the
    settings in force. *)
Lemma onValueChange_provider_change (model : jsstring) (s : Session.t) :
  currentProvider groupedModels (Session.model s)
    <> currentProvider groupedModels model ->
  Session.aiSettings (onValueChange groupedModels model s)
  = settingsUpdate (currentProvider groupedModels model)
      (Session.aiSettings s).
Proof.
  intros H. apply StrFacts.eqb_neq in H.
  unfold onValueChange, rerender, settingsEffect. simpl.
  rewrite H, currentProvider_truthy. reflexivity.
Qed.

(** Selecting a model of the same provider leaves the settings alone. *)
Lemma onValueChange_same_provider (model : jsstring) (s : Session.t) :
  currentProvider groupedModels (Session.model s)
    = currentProvider groupedModels model ->
  Session.aiSettings (onValueChange groupedModels model s)
  = Session.aiSettings s.
Proof.
  intros H. apply StrFacts.eqb_eq in H.
  unfold onValueChange, rerender. simpl. rewrite H. reflexivity.
Qed.

(** C3, as amended: when the provider of the selected model changes to
    [p], the temperature becomes [0.0] if [p] is deepseek and is kept
    otherwise; [maxTokens] becomes the default ceiling of [p] if [p] is one
    of anthropic, openai, google, deepseek and is kept otherwise; topP,
    streaming and both penalties are kept. *)
Theorem provider_change_settings (model : jsstring) (s : Session.t) :
  let p := currentProvider groupedModels model in
  let old := Session.aiSettings s in
  let new := Session.aiSettings (onValueChange groupedModels model s) in
  currentProvider groupedModels (Session.model s) <> p ->
  AISettings.temperature new
    = (if Str.eqb p (js "deepseek") then 0.0%float
       else AISettings.temperature old)
  /\ AISettings.maxTokens new
    = (if named_provider p then AISettings.maxTokens (getDefaultSettings p)
       else AISettings.maxTokens old)
  /\ AISettings.topP new = AISettings.topP old
  /\ AISettings.streamOutput new = AISettings.streamOutput old
  /\ AISettings.frequencyPenalty new = AISettings.frequencyPenalty old
  /\ AISettings.presencePenalty new = AISettings.presencePenalty old.
Proof.
  intros p old new H. subst new old.
  rewrite (onValueChange_provider_change model s H). fold p.
  repeat split. unfold named_provider, settingsUpdate, getDefaultSettings.
  simpl.
  destruct (Str.eqb p (js "anthropic")); [reflexivity|].
  destruct (Str.eqb p (js "openai")); [reflexivity|].
  destruct (Str.eqb p (js "google")); [reflexivity|].
  destruct (Str.eqb p (js "deepseek")); reflexivity.
Qed.

End ProviderSettings.

Lemma provider_change_settings_witness :
  AISettings.maxTokens
    (Session.aiSettings (onValueChange demo_groups (js "gpt-4o")
                           demo_session)) = 64000%Z
  /\ AISettings.temperature
       (Session.aiSettings (onValueChange demo_groups (js "gpt-4o")
                              demo_session)) = 0.0%float.
Proof.
  destruct (provider_change_settings demo_groups (js "gpt-4o") demo_session)
    as (Ht & Hm & _).
  - vm_compute. discriminate.
  - split; [exact Hm | exact Ht].
Defined.

(** C3 as written fails: going from deepseek to openai keeps the
    temperature at deepseek's [0.0]; openai's default of [0.7] is not
    installed. *)
Lemma provider_change_temperature_counterexample :
  currentProvider demo_groups (Session.model demo_session) = js "deepseek"
  /\ currentProvider demo_groups (js "gpt-4o") = js "openai"
  /\ AISettings.temperature
       (Session.aiSettings (onValueChange demo_groups (js "gpt-4o")
                              demo_session))
     <> AISettings.temperature (getDefaultSettings (js "openai")).
Proof.
  split; [reflexivity|]. split; [reflexivity|].
  intros H. apply (f_equal (fun x => PrimFloat.eqb x 0.7%float)) in H.
  vm_compute in H. discriminate.
Qed.

(** ** The event handlers *)

Lemma status_eqb_eq (a b : Status) : status_eqb a b = true <-> a = b.
Proof. destruct a, b; simpl; split; congruence. Qed.

Lemma status_eqb_neq (a b : Status) : status_eqb a b = false <-> a <> b.
Proof. destruct a, b; simpl; split; congruence. Qed.

Lemma falsy_nil (s : jsstring) : falsy s = true <-> s = [].
Proof. destruct s; simpl; split; congruence. Qed.

Lemma falsy_cons (s : jsstring) : falsy s = false <-> s <> [].
Proof. destruct s; simpl; split; congruence. Qed.

(** Unfolds the plumbing of a handler body, leaving the streaming loops to
    [stream_code_run] and [stream_text_run]. *)
Ltac reduce_handler :=
  cbn [fst snd app negb orb andb status_eqb
       StreamResponse.ok StreamResponse.body JsonResponse.ok
       JsonResponse.json ReadableStream.chunks ReadableStream.ending
       CreateEnv.generate CreateEnv.persist CreateEnv.analytics
       ChatEnv.generate ChatEnv.analytics CreatedApp.id].

Ltac step_handler :=
  unfold Async.fetch, Async.json, getReader, updateTokenAnalytics,
    createApp_reset;
  unfold Async.try_finally, Async.try_catch, Async.bind, Async.emit,
    Async.set, Async.ret, Async.throw;
  reduce_handler;
  rewrite ?stream_code_run, ?stream_text_run;
  reduce_handler.

(** C5: every network-driving action is a no-op when its entry guard
    fails.  With a status other than [initial], [createApp],
    [generateAppIdea] and [refinePrompt] issue no request and leave the
    session as it was; so does [handleChatMessage] with a status other
    than [created] or with no generated code. *)
Theorem entry_guards_noop (percent : Z -> Z -> jsstring)
    (s : Session.t) (create_env : CreateEnv.t) (chat_env : ChatEnv.t)
    (answer : Fetched StreamResponse.t) (message : jsstring) :
  (Session.status s <> initial ->
   (fst (dispatch (createApp percent create_env) s) = s
    /\ requests (snd (dispatch (createApp percent create_env) s)) = [])
   /\ dispatch (generateAppIdea answer) s = (s, [])
   /\ dispatch (refinePrompt answer) s = (s, []))
  /\ (Session.status s <> created \/ Session.generatedCode s = [] ->
      dispatch (handleChatMessage percent chat_env message) s = (s, [])).
Proof.
  split.
  - intros H. apply status_eqb_neq in H.
    unfold dispatch, createApp, generateAppIdea, refinePrompt.
    rewrite H, orb_true_r. simpl. auto.
  - intros H. unfold dispatch, handleChatMessage.
    assert (G : falsy (Session.generatedCode s)
                || negb (status_eqb (Session.status s) created) = true).
    { destruct H as [H|H].
      - apply status_eqb_neq in H. rewrite H. apply orb_true_r.
      - apply falsy_nil in H. rewrite H. reflexivity. }
    rewrite G. reflexivity.
Qed.

Lemma entry_guards_noop_witness :
  dispatch (generateAppIdea (streams [js "A todo list"])) busy_session
    = (busy_session, [])
  /\ dispatch (handleChatMessage (fun _ _ => [])
                 {| ChatEnv.generate := streams [js "x"];
                    ChatEnv.analytics := Rejects |} (js "make it blue"))
       busy_session
     = (busy_session, []).
Proof.
  destruct (entry_guards_noop (fun _ _ => []) busy_session
              {| CreateEnv.generate := Rejects;
                 CreateEnv.persist := Rejects;
                 CreateEnv.analytics := Rejects |}
              {| ChatEnv.generate := streams [js "x"];
                 ChatEnv.analytics := Rejects |}
              (streams [js "A todo list"]) (js "make it blue"))
    as [Hinitial Hcreated].
  split.
  - apply Hinitial. discriminate.
  - apply Hcreated. left. discriminate.
Defined.

(** The outcome of both prompt-assist bodies, for any answer. *)
Lemma prompt_assist_run (req : Request) (label : jsstring)
    (answer : Fetched StreamResponse.t) (s : Session.t) (busy : Status) :
  let final :=
    snd (Async.try_finally
           (Async.try_catch
              (res <- Async.fetch req answer ;;
               reader <- getReader res ;;
               text <- stream_text (ReadableStream.chunks reader)
                         (ReadableStream.ending reader) [] ;;
               Async.set (Session.setPrompt (trim text)))
              (Async.emit (ConsoleError label)))
           (Async.set (Session.setStatus initial))
           (Session.setStatus busy s, [])) in
  Session.status (fst final) = initial
  /\ Session.prompt (fst final)
     = match completed_stream answer with
       | Some chunks => trim (concat chunks)
       | None => Session.prompt s
       end
  /\ requests (snd final) = [req].
Proof.
  destruct answer as [|[ok [[chunks ending]|]]]; [| destruct ok ..];
    step_handler; try (simpl; auto; fail).
  destruct ending; simpl; auto.
Qed.

(** C8: once started (status [initial], and a non-empty prompt for the
    refinement), each prompt-assist action ends with status [initial]
    whatever the network answers; if the stream ran to its end the prompt
    is the trimmed streamed text, otherwise the prompt is what it was. *)
Theorem prompt_assist_restores_initial (answer : Fetched StreamResponse.t)
    (s : Session.t) :
  Session.status s = initial ->
  (let final := fst (dispatch (generateAppIdea answer) s) in
   Session.status final = initial
   /\ Session.prompt final
      = match completed_stream answer with
        | Some chunks => trim (concat chunks)
        | None => Session.prompt s
        end)
  /\ (Session.prompt s <> [] ->
      let final := fst (dispatch (refinePrompt answer) s) in
      Session.status final = initial
      /\ Session.prompt final
         = match completed_stream answer with
           | Some chunks => trim (concat chunks)
           | None => Session.prompt s
           end).
Proof.
  intros Hs. split.
  - unfold dispatch, generateAppIdea. rewrite Hs.
    cbn [status_eqb negb Async.bind Async.set fst snd].
    destruct (prompt_assist_run
                (post_generateIdea (Session.model s) (Session.aiSettings s))
                (js "Error generating app idea:") answer s brainstorming)
      as (H1 & H2 & _).
    split; [exact H1 | exact H2].
  - intros Hp. apply falsy_cons in Hp.
    unfold dispatch, refinePrompt. rewrite Hs, Hp.
    cbn [status_eqb negb orb Async.bind Async.set fst snd].
    destruct (prompt_assist_run
                (post_refinePrompt (Session.model s) (Session.prompt s)
                   (Session.aiSettings s))
                (js "Error refining prompt:") answer s refining)
      as (H1 & H2 & _).
    split; [exact H1 | exact H2].
Qed.

Lemma prompt_assist_restores_initial_witness :
  Session.status
    (fst (dispatch (generateAppIdea (streams [js " A tip"; js " jar "]))
            prompted_session)) = initial
  /\ Session.prompt
       (fst (dispatch (refinePrompt (streams [js " A tip"; js " jar "]))
               prompted_session)) = js "A tip jar".
Proof.
  destruct (prompt_assist_restores_initial
              (streams [js " A tip"; js " jar "]) prompted_session eq_refl)
    as [[Hstatus _] Hrefine].
  split; [exact Hstatus|].
  destruct Hrefine as [_ Hprompt]; [discriminate | exact Hprompt].
Defined.

Lemma completed_stream_streams (answer : Fetched StreamResponse.t)
    (chunks : list jsstring) :
  completed_stream answer = Some chunks -> answer = streams chunks.
Proof.
  destruct answer as [|[ok [[cs ending]|]]]; simpl; try discriminate;
    destruct ok; simpl; try discriminate.
  destruct ending; [|discriminate]. intros H; inversion H. reflexivity.
Qed.

Lemma guard_passes (s : Session.t) :
  Session.status s = initial -> Session.prompt s <> [] ->
  falsy (Session.prompt s) || negb (status_eqb (Session.status s) initial)
  = false.
Proof.
  intros Hs Hp. apply falsy_cons in Hp. rewrite Hs, Hp. reflexivity.
Qed.

(** C7: a chat refinement that has started (status [created], code
    present) and whose generation fails before its stream has run to the
    end - rejected fetch, non-OK response, missing body or failed read -
    ends with status [created] and the refinement history as it was. *)
Theorem failed_refinement_keeps_history (percent : Z -> Z -> jsstring)
    (env : ChatEnv.t) (message : jsstring) (s : Session.t) :
  Session.status s = created ->
  Session.generatedCode s <> [] ->
  completed_stream (ChatEnv.generate env) = None ->
  let final := fst (dispatch (handleChatMessage percent env message) s) in
  Session.status final = created
  /\ Session.refinementMessages final = Session.refinementMessages s.
Proof.
  intros Hs Hc Hfail. apply falsy_cons in Hc.
  unfold dispatch, handleChatMessage. rewrite Hs, Hc.
  destruct env as [generate analytics]. simpl in Hfail.
  destruct generate as [|[ok [[chunks ending]|]]]; [| destruct ok ..];
    simpl in Hfail; try discriminate; step_handler;
    try (simpl; auto; fail).
  destruct ending; [discriminate|]. simpl. auto.
Qed.

Lemma failed_refinement_keeps_history_witness :
  Session.status
    (fst (dispatch
            (handleChatMessage (fun _ _ => [])
               {| ChatEnv.generate :=
                    Resolves
                      {| StreamResponse.ok := true;
                         StreamResponse.body :=
                           Some {| ReadableStream.chunks := [js "export"];
                                   ReadableStream.ending := ReadFails |} |};
                  ChatEnv.analytics := Rejects |}
               (js "make it blue"))
            created_session)) = created.
Proof.
  apply (failed_refinement_keeps_history (fun _ _ => [])
           {| ChatEnv.generate :=
                Resolves
                  {| StreamResponse.ok := true;
                     StreamResponse.body :=
                       Some {| ReadableStream.chunks := [js "export"];
                               ReadableStream.ending := ReadFails |} |};
              ChatEnv.analytics := Rejects |}
           (js "make it blue") created_session).
  - reflexivity.
  - discriminate.
  - reflexivity.
Defined.

(** X18: a refinement whose stream runs to its end commits the user
    message, ends with status [created] and shows the code of the
    stream, whatever happens to the analytics request afterwards. *)
Lemma completed_refinement_commits (percent : Z -> Z -> jsstring)
    (env : ChatEnv.t) (message : jsstring) (s : Session.t)
    (chunks : list jsstring) :
  Session.status s = created ->
  Session.generatedCode s <> [] ->
  completed_stream (ChatEnv.generate env) = Some chunks ->
  let final := fst (dispatch (handleChatMessage percent env message) s) in
  Session.status final = created
  /\ Session.refinementMessages final
     = Session.refinementMessages s ++ [user message]
  /\ Session.generatedCode final
     = displayed chunks [] (Session.generatedCode s).
Proof.
  intros Hs Hc Hdone. apply falsy_cons in Hc.
  apply completed_stream_streams in Hdone.
  unfold dispatch, handleChatMessage. rewrite Hs, Hc.
  destruct env as [generate analytics]. simpl in Hdone. subst generate.
  unfold streams.
  destruct (truthy_id (Session.currentGeneratedAppId s));
    [destruct analytics as [|[ok [a|]]]; [| destruct ok ..] |];
    step_handler; simpl; auto.
Qed.

(** Case analysis on what the store and the analytics endpoint answer. *)
Ltac split_answers persist analytics :=
  destruct persist as [|[pok [[pid]|]]]; [| destruct pok ..];
  (destruct analytics as [|[aok [a|]]]; [| destruct aok ..]).



(** What the resets at the head of [createApp] do to each cell. *)
Lemma createApp_reset_run (s : Session.t) (trace : list Effect) :
  let reset := fst (snd (createApp_reset s (s, trace))) in
  Session.status reset = creating
  /\ Session.generatedCode reset = []
  /\ Session.showAnalytics reset = false
  /\ Session.tokenAnalytics reset = None
  /\ Session.chatVisible reset = false
  /\ Session.refinementMessages reset = []
  /\ Session.messages reset = [user (Session.prompt s)]
  /\ Session.currentGeneratedAppId reset = Session.currentGeneratedAppId s
  /\ snd (snd (createApp_reset s (s, trace))) = trace.
Proof. simpl. repeat split. Qed.

(** C9, as amended: the resets at the head of [createApp] empty the code
    buffer, the analytics flag, the cumulative analytics, the chat
    visibility and the refinement history and keep the identifier; the
    identifier at the end of the run is the one the store returned if the
    persistence call succeeded, and the one the run started with
    otherwise; a run that fails before its persistence call has succeeded
    ends with status [initial] and the earlier identifier. *)
Theorem createApp_keeps_identifier (percent : Z -> Z -> jsstring)
    (env : CreateEnv.t) (s : Session.t) :
  Session.status s = initial ->
  Session.prompt s <> [] ->
  let reset := fst (snd (createApp_reset s (s, []))) in
  let final := fst (dispatch (createApp percent env) s) in
  (Session.generatedCode reset = []
   /\ Session.showAnalytics reset = false
   /\ Session.tokenAnalytics reset = None
   /\ Session.chatVisible reset = false
   /\ Session.refinementMessages reset = []
   /\ Session.currentGeneratedAppId reset = Session.currentGeneratedAppId s)
  /\ Session.currentGeneratedAppId final
     = match captured_id env with
       | Some id => id
       | None => Session.currentGeneratedAppId s
       end
  /\ (captured_id env = None ->
      Session.status final = initial
      /\ Session.currentGeneratedAppId final
         = Session.currentGeneratedAppId s).
Proof.
  intros Hs Hp. split; [simpl; repeat split|].
  unfold dispatch, createApp, captured_id.
  rewrite (guard_passes s Hs Hp).
  destruct env as [generate persist analytics].
  destruct generate as [|[ok [[chunks ending]|]]]; [| destruct ok ..];
    [| destruct ending | | |];
    split_answers persist analytics;
    step_handler; simpl; split; try reflexivity; try discriminate; auto.
Qed.

Lemma createApp_keeps_identifier_witness :
  Session.currentGeneratedAppId
    (fst (dispatch
            (createApp (fun _ _ => [])
               {| CreateEnv.generate := Rejects;
                  CreateEnv.persist := persists (js "app-2");
                  CreateEnv.analytics := Rejects |})
            persisted_session)) = Some (js "app-1").
Proof.
  destruct (createApp_keeps_identifier (fun _ _ => [])
              {| CreateEnv.generate := Rejects;
                 CreateEnv.persist := persists (js "app-2");
                 CreateEnv.analytics := Rejects |}
              persisted_session) as (_ & Hid & _).
  - reflexivity.
  - discriminate.
  - exact Hid.
Defined.

(** C9 as written fails in its last clause: a run whose store call
    succeeds and whose analytics fetch is then rejected is a failed
    creation (it ends with status [initial]), yet it ends with the new
    identifier, not the earlier one. *)
Lemma failed_creation_new_identifier_counterexample :
  let env := {| CreateEnv.generate := streams [js "export default 1"];
                CreateEnv.persist := persists (js "app-2");
                CreateEnv.analytics := Rejects |} in
  let final := fst (dispatch (createApp (fun _ _ => []) env)
                      persisted_session) in
  Session.currentGeneratedAppId persisted_session = Some (js "app-1")
  /\ Session.status final = initial
  /\ Session.currentGeneratedAppId final = Some (js "app-2")
  /\ Session.currentGeneratedAppId final
     <> Session.currentGeneratedAppId persisted_session.
Proof. vm_compute. repeat split. discriminate. Qed.

(** C4, as amended: in a fresh-creation run whose stream runs to its end,
    the code sent to the generated-app store is the raw stream buffer, the
    concatenation of the chunks; the fence-stripped text is what the
    display holds. *)
Theorem createApp_persists_raw_buffer (percent : Z -> Z -> jsstring)
    (env : CreateEnv.t) (chunks : list jsstring) (s : Session.t) :
  Session.status s = initial ->
  Session.prompt s <> [] ->
  completed_stream (CreateEnv.generate env) = Some chunks ->
  let run := dispatch (createApp percent env) s in
  persisted_code (requests (snd run)) = Some (concat chunks)
  /\ Session.generatedCode (fst run) = displayed chunks [] [].
Proof.
  intros Hs Hp Hdone. apply completed_stream_streams in Hdone.
  destruct env as [generate persist analytics]. simpl in Hdone.
  subst generate. unfold dispatch, createApp, streams.
  rewrite (guard_passes s Hs Hp).
  split_answers persist analytics; step_handler; simpl; auto.
Qed.

Lemma createApp_persists_raw_buffer_witness :
  persisted_code
    (requests
       (snd (dispatch
               (createApp (fun _ _ => [])
                  {| CreateEnv.generate := streams fenced_chunks;
                     CreateEnv.persist := persists (js "app-1");
                     CreateEnv.analytics := Rejects |})
               prompted_session)))
  = Some (fence ++ js "tsx" ++ [newline]
          ++ js "export default function App(){}" ++ [newline] ++ fence).
Proof.
  apply (createApp_persists_raw_buffer (fun _ _ => [])
           {| CreateEnv.generate := streams fenced_chunks;
              CreateEnv.persist := persists (js "app-1");
              CreateEnv.analytics := Rejects |}
           fenced_chunks prompted_session).
  - reflexivity.
  - discriminate.
  - reflexivity.
Defined.

(** C4 as written fails: the run below completes with status [created]
    and shows the code without its fence, while the store is sent the
    buffer with the fence. *)
Lemma createApp_persists_stripped_counterexample :
  let env := {| CreateEnv.generate := streams fenced_chunks;
                CreateEnv.persist := persists (js "app-1");
                CreateEnv.analytics :=
                  Resolves {| JsonResponse.ok := false;
                              JsonResponse.json := None |} |} in
  let run := dispatch (createApp (fun _ _ => []) env) prompted_session in
  Session.status (fst run) = created
  /\ Session.generatedCode (fst run)
     = js "export default function App(){}"
  /\ Session.generatedCode (fst run)
     = removeCodeFormatting (concat fenced_chunks)
  /\ persisted_code (requests (snd run))
     <> Some (removeCodeFormatting (concat fenced_chunks)).
Proof. vm_compute. repeat split. discriminate. Qed.

(** The handler body alone: [handleLoadGeneration] checks nothing.  From
    any session, with any status, it ends with status [created], the saved
    code, prompt, model and identifier in place, the chat visible and the
    AI settings written back as they were; its only effect is the scroll
    signal. *)
Lemma load_generation_unguarded (generation : SavedGeneration.t)
    (s : Session.t) :
  let app := SavedGeneration.generatedApp generation in
  let run := dispatch (handleLoadGeneration generation) s in
  Session.status (fst run) = created
  /\ Session.generatedCode (fst run) = GeneratedApp.code app
  /\ Session.prompt (fst run) = GeneratedApp.prompt app
  /\ Session.model (fst run) = GeneratedApp.model app
  /\ Session.currentGeneratedAppId (fst run) = Some (GeneratedApp.id app)
  /\ Session.chatVisible (fst run) = true
  /\ Session.aiSettings (fst run) = Session.aiSettings s
  /\ snd run = [ScrollTo].
Proof. simpl. repeat split. Qed.

(** The other cells are not touched by a load either. *)
Lemma load_generation_frame (generation : SavedGeneration.t)
    (s : Session.t) :
  let final := fst (dispatch (handleLoadGeneration generation) s) in
  Session.tokenAnalytics final = Session.tokenAnalytics s
  /\ Session.showAnalytics final = Session.showAnalytics s
  /\ Session.runtimeError final = Session.runtimeError s
  /\ Session.messages final = Session.messages s
  /\ Session.refinementMessages final = Session.refinementMessages s
  /\ Session.showSettings final = Session.showSettings s.
Proof. simpl. repeat split. Qed.

(** The render after a load is another matter: when the loaded model
    belongs to another provider than the selected one, the settings effect
    runs on the settings the handler left in place. *)
Lemma load_generation_then_rerender (groupedModels : list ModelGroup.t)
    (generation : SavedGeneration.t) (s : Session.t) :
  let loaded := fst (dispatch (handleLoadGeneration generation) s) in
  currentProvider groupedModels (Session.model s)
    <> currentProvider groupedModels (Session.model loaded) ->
  Session.aiSettings (rerender groupedModels s loaded)
  = settingsUpdate (currentProvider groupedModels (Session.model loaded))
      (Session.aiSettings s).
Proof.
  intros loaded H. apply StrFacts.eqb_neq in H. unfold rerender.
  rewrite H. unfold settingsEffect.
  rewrite currentProvider_truthy. reflexivity.
Qed.

(** A load and the render that follows it, cell by cell. *)
Lemma load_rendered_cells (groupedModels : list ModelGroup.t)
    (generation : SavedGeneration.t) (s : Session.t) :
  let app := SavedGeneration.generatedApp generation in
  let loaded :=
    rerender groupedModels s
      (fst (dispatch (handleLoadGeneration generation) s)) in
  Session.status loaded = created
  /\ Session.generatedCode loaded = GeneratedApp.code app
  /\ Session.prompt loaded = GeneratedApp.prompt app
  /\ Session.model loaded = GeneratedApp.model app
  /\ Session.currentGeneratedAppId loaded = Some (GeneratedApp.id app)
  /\ Session.chatVisible loaded = true
  /\ Session.aiSettings loaded
     = (if Str.eqb (currentProvider groupedModels (Session.model s))
             (currentProvider groupedModels (GeneratedApp.model app))
        then Session.aiSettings s
        else settingsUpdate
               (currentProvider groupedModels (GeneratedApp.model app))
               (Session.aiSettings s))
  /\ Session.refinementMessages loaded = Session.refinementMessages s
  /\ Session.runtimeError loaded = Session.runtimeError s
  /\ Session.tokenAnalytics loaded = Session.tokenAnalytics s.
Proof.
  intros app loaded. subst loaded app.
  unfold rerender, settingsEffect, dispatch. simpl.
  destruct (Str.eqb (currentProvider groupedModels (Session.model s))
              (currentProvider groupedModels
                 (GeneratedApp.model
                    (SavedGeneration.generatedApp generation))));
    [simpl; repeat split|].
  rewrite currentProvider_truthy. simpl. repeat split.
Qed.

(** C10, as amended: loading a saved generation checks no guard.  From
    every state, with every status ([creating] and [updating] included),
    the handler and the render that follows it end with status [created],
    the saved code, prompt, model and identifier in place and the chat
    visible.  The handler writes the AI settings back as they were; after
    the render they are unchanged when the loaded model belongs to the
    provider of the model selected before, and otherwise they are what
    the settings effect makes of them for the provider of the loaded
    model. *)
Theorem load_generation_rendered (groupedModels : list ModelGroup.t)
    (generation : SavedGeneration.t) (s : Session.t) :
  let app := SavedGeneration.generatedApp generation in
  let handled := fst (dispatch (handleLoadGeneration generation) s) in
  let loaded := rerender groupedModels s handled in
  Session.status loaded = created
  /\ Session.generatedCode loaded = GeneratedApp.code app
  /\ Session.prompt loaded = GeneratedApp.prompt app
  /\ Session.model loaded = GeneratedApp.model app
  /\ Session.currentGeneratedAppId loaded = Some (GeneratedApp.id app)
  /\ Session.chatVisible loaded = true
  /\ Session.aiSettings handled = Session.aiSettings s
  /\ Session.aiSettings loaded
     = (if Str.eqb (currentProvider groupedModels (Session.model s))
             (currentProvider groupedModels (GeneratedApp.model app))
        then Session.aiSettings s
        else settingsUpdate
               (currentProvider groupedModels (GeneratedApp.model app))
               (Session.aiSettings s)).
Proof.
  intros app handled loaded.
  destruct (load_rendered_cells groupedModels generation s)
    as (H1 & H2 & H3 & H4 & H5 & H6 & H7 & _).
  repeat split; assumption || reflexivity.
Qed.

(** C10 as written fails: loading a generation made with an openai model
    into a session whose selected model is deepseek's runs the settings
    effect in the render that follows, and [maxTokens] goes from 32768 to
    64000. *)
Lemma load_generation_settings_counterexample :
  let loaded :=
    rerender demo_groups created_session
      (fst (dispatch (handleLoadGeneration saved_counter)
              created_session)) in
  AISettings.maxTokens (Session.aiSettings created_session) = 32768%Z
  /\ AISettings.maxTokens (Session.aiSettings loaded) = 64000%Z
  /\ Session.aiSettings loaded <> Session.aiSettings created_session.
Proof.
  split; [reflexivity|]. split; [reflexivity|].
  intros H. apply (f_equal AISettings.maxTokens) in H.
  vm_compute in H. discriminate.
Qed.

(** ** The streaming accumulator *)




(** It also fails for a recognised block with prose around it: the fence
    goes, the prose stays. *)
Lemma streamed_block_with_prose :
  let inner := js "export default 1" ++ [newline] in
  let chunks := [ js "Here you go:" ++ [newline];
                  fenced (js "tsx") inner ] in
  Session.generatedCode
    (fst (snd (stream_code chunks EndOfStream [] (prompted_session, []))))
  = js "Here you go:" ++ [newline] ++ js "export default 1".
Proof. vm_compute. reflexivity. Qed.

(** * Further properties *)

(** ** [removeCodeFormatting] beyond a single recognised block *)

Module FenceFacts.

Import StrFacts.

Lemma match_at_needs_fence (s : jsstring) :
  strip_prefix fence s = None -> match_at s = None.
Proof. intros H. unfold match_at. rewrite H. reflexivity. Qed.

Lemma replace_fences_nil : replace_fences [] = [].
Proof. now simp replace_fences. Qed.

(** Without three backticks in a row nothing is replaced. *)
Lemma replace_fences_no_fence (s : jsstring) :
  contains_fence s = false -> replace_fences s = s.
Proof.
  induction s as [|c s IH]; intros H; [apply replace_fences_nil|].
  rewrite contains_fence_unfold in H.
  destruct (strip_prefix fence (c :: s)) eqn:E; [discriminate|].
  rewrite (replace_fences_copy _ _ (match_at_needs_fence _ E)).
  rewrite (IH H). reflexivity.
Qed.

(** Text before the first fence is copied. *)
Lemma replace_fences_before_fence (pre r : jsstring) :
  contains_fence (pre ++ [backtick; backtick]) = false ->
  replace_fences (pre ++ fence ++ r) = pre ++ replace_fences (fence ++ r).
Proof.
  induction pre as [|c x IH]; intros H; [reflexivity|].
  change ((c :: x) ++ [backtick; backtick])
    with (c :: x ++ [backtick; backtick]) in H.
  change ((c :: x) ++ fence ++ r) with (c :: x ++ fence ++ r).
  rewrite contains_fence_unfold in H.
  destruct (strip_prefix fence (c :: x ++ [backtick; backtick])) eqn:E;
    [discriminate|].
  apply (strip_prefix_fence_head c x r) in E.
  rewrite (replace_fences_copy _ _ (match_at_needs_fence _ E)).
  rewrite (IH H). reflexivity.
Qed.

Lemma fenced_app (tag inner r : jsstring) :
  fenced tag inner ++ r = fence ++ (tag ++ newline :: inner ++ fence ++ r).
Proof.
  unfold fenced. rewrite <- !app_assoc. simpl.
  rewrite <- !app_assoc. reflexivity.
Qed.

(** The replacement on one recognised block in the middle of other text:
    the fences and the tag line go, the inner content and the text around
    it stay. *)
Lemma replace_fences_block (pre tag inner r : jsstring) :
  In tag (language_tags ++ [[]]) ->
  contains_fence (pre ++ [backtick; backtick]) = false ->
  contains_fence (inner ++ [backtick; backtick]) = false ->
  replace_fences (pre ++ fenced tag inner ++ r)
  = pre ++ inner ++ replace_fences r.
Proof.
  intros Htag Hpre Hinner. rewrite fenced_app.
  rewrite (replace_fences_before_fence _ _ Hpre).
  rewrite <- fenced_app.
  rewrite (replace_fences_match _ _ _
             (match_at_fenced tag inner r Htag Hinner)).
  reflexivity.
Qed.

(** X1: text in which three backticks in a row do not occur is only
    trimmed. *)
Theorem removeCodeFormatting_no_fence (s : jsstring) :
  contains_fence s = false -> removeCodeFormatting s = trim s.
Proof.
  intros H. unfold removeCodeFormatting.
  rewrite (replace_fences_no_fence _ H). reflexivity.
Qed.

Lemma removeCodeFormatting_no_fence_witness :
  removeCodeFormatting (js "  const s = `a``b`; ")
  = js "const s = `a``b`;".
Proof.
  rewrite (removeCodeFormatting_no_fence (js "  const s = `a``b`; "));
    reflexivity.
Defined.

(** X2: one recognised block with prose around it: the fence lines are
    removed, the prose and the inner content are kept and the whole is
    trimmed. *)
Theorem removeCodeFormatting_block_in_prose (pre tag inner post : jsstring) :
  In tag (language_tags ++ [[]]) ->
  contains_fence (pre ++ [backtick; backtick]) = false ->
  contains_fence (inner ++ [backtick; backtick]) = false ->
  contains_fence post = false ->
  removeCodeFormatting (pre ++ fenced tag inner ++ post)
  = trim (pre ++ inner ++ post).
Proof.
  intros Htag Hpre Hinner Hpost. unfold removeCodeFormatting.
  rewrite (replace_fences_block _ _ _ _ Htag Hpre Hinner).
  rewrite (replace_fences_no_fence _ Hpost). reflexivity.
Qed.

Lemma removeCodeFormatting_block_in_prose_witness :
  removeCodeFormatting
    (js "Here you go:" ++ fenced (js "javascript") (js "let x = 1;")
     ++ js " Enjoy! ")
  = js "Here you go:let x = 1; Enjoy!".
Proof.
  rewrite (removeCodeFormatting_block_in_prose (js "Here you go:")
             (js "javascript") (js "let x = 1;") (js " Enjoy! "));
    try reflexivity.
  simpl. auto.
Defined.

(** X3: the pattern is global: of two recognised blocks both lose their
    fences. *)
Theorem removeCodeFormatting_two_blocks
    (pre tag1 inner1 mid tag2 inner2 post : jsstring) :
  In tag1 (language_tags ++ [[]]) ->
  In tag2 (language_tags ++ [[]]) ->
  contains_fence (pre ++ [backtick; backtick]) = false ->
  contains_fence (inner1 ++ [backtick; backtick]) = false ->
  contains_fence (mid ++ [backtick; backtick]) = false ->
  contains_fence (inner2 ++ [backtick; backtick]) = false ->
  contains_fence post = false ->
  removeCodeFormatting
    (pre ++ fenced tag1 inner1 ++ mid ++ fenced tag2 inner2 ++ post)
  = trim (pre ++ inner1 ++ mid ++ inner2 ++ post).
Proof.
  intros Ht1 Ht2 Hpre Hi1 Hmid Hi2 Hpost. unfold removeCodeFormatting.
  rewrite (replace_fences_block _ _ _ _ Ht1 Hpre Hi1).
  rewrite (replace_fences_block _ _ _ _ Ht2 Hmid Hi2).
  rewrite (replace_fences_no_fence _ Hpost). reflexivity.
Qed.

Lemma removeCodeFormatting_two_blocks_witness :
  removeCodeFormatting
    (js "A:" ++ fenced (js "tsx") (js "one") ++ js " B:"
     ++ fenced [] (js "two") ++ js ".")
  = js "A:one B:two.".
Proof.
  rewrite (removeCodeFormatting_two_blocks (js "A:") (js "tsx") (js "one")
             (js " B:") [] (js "two") (js "."));
    try reflexivity; simpl; auto.
Defined.

Lemma lazy_until_fence_none (s : jsstring) :
  contains_fence s = false -> lazy_until_fence s = None.
Proof.
  induction s as [|c s IH]; intros H; [reflexivity|].
  rewrite contains_fence_unfold in H. rewrite lazy_until_fence_unfold.
  destruct (strip_prefix fence (c :: s)); [discriminate|].
  rewrite (IH H). reflexivity.
Qed.

(** White space at the end is taken off the last part only, when the
    part before it ends in something else. *)
Lemma trimEnd_app_kept (a b : jsstring) :
  trimStart (rev a) = rev a -> trimEnd (a ++ b) = a ++ trimEnd b.
Proof.
  intros Ha. unfold trimEnd. rewrite rev_app_distr.
  destruct (trimStart (rev b)) as [|c y] eqn:E.
  - apply trimStart_nil_blank in E.
    rewrite (trimStart_blank_app _ _ E), Ha, rev_involutive.
    symmetry. apply app_nil_r.
  - rewrite trimStart_app by (rewrite E; discriminate).
    rewrite E, rev_app_distr, rev_involutive. reflexivity.
Qed.

(** The opening line of a block whose closing fence is not there. *)
Lemma replace_fences_open_block (tag body : jsstring) :
  In tag (language_tags ++ [[]]) ->
  contains_fence body = false ->
  replace_fences (fence ++ tag ++ newline :: body)
  = fence ++ tag ++ newline :: body.
Proof.
  intros Htag Hbody.
  pose proof (lazy_until_fence_none _ Hbody) as L.
  pose proof (replace_fences_no_fence _ Hbody) as R.
  simpl in Htag.
  destruct Htag as [<-|[<-|[<-|[<-|[]]]]];
    cbn [fence js map list_ascii_of_string app];
    repeat (rewrite replace_fences_copy;
            [| unfold match_at; cbn; rewrite ?L; reflexivity]);
    rewrite R; reflexivity.
Qed.

(** X4: while the closing fence of a block has not arrived, nothing is
    stripped: the opening fence and its tag stay in front, only white
    space at the end is taken off. *)
Theorem removeCodeFormatting_open_block (tag body : jsstring) :
  In tag (language_tags ++ [[]]) ->
  contains_fence body = false ->
  removeCodeFormatting (fence ++ tag ++ newline :: body)
  = fence ++ tag ++ trimEnd (newline :: body).
Proof.
  intros Htag Hbody. unfold removeCodeFormatting.
  rewrite (replace_fences_open_block _ _ Htag Hbody).
  unfold trim. change (trimStart (fence ++ tag ++ newline :: body))
    with (fence ++ tag ++ newline :: body).
  rewrite app_assoc, trimEnd_app_kept, <- app_assoc; [reflexivity|].
  simpl in Htag. destruct Htag as [<-|[<-|[<-|[<-|[]]]]]; reflexivity.
Qed.

Lemma removeCodeFormatting_open_block_witness :
  removeCodeFormatting (fence ++ js "tsx" ++ newline :: js "export de ")
  = fence ++ js "tsx" ++ newline :: js "export de".
Proof.
  rewrite (removeCodeFormatting_open_block (js "tsx") (js "export de "));
    try reflexivity.
  simpl. auto.
Defined.

Lemma lazy_until_fence_parts (s cap rest : jsstring) :
  lazy_until_fence s = Some (cap, rest) -> s = cap ++ fence ++ rest.
Proof.
  revert cap; induction s as [|c s IH]; intros cap;
    rewrite lazy_until_fence_unfold.
  - discriminate.
  - destruct (strip_prefix fence (c :: s)) as [r|] eqn:E.
    + intros H; inversion H; subst. exact (strip_prefix_some _ _ _ E).
    + destruct (lazy_until_fence s) as [[cap' rest']|]; [|discriminate].
      intros H; inversion H; subst.
      rewrite (IH _ eq_refl) at 1. reflexivity.
Qed.

(** A match is an opening fence, one of the four tags, a line break, the
    captured group and a closing fence. *)
Lemma match_at_parts (s cap rest : jsstring) :
  match_at s = Some (cap, rest) ->
  exists tag, In tag (language_tags ++ [[]])
              /\ s = fenced tag cap ++ rest.
Proof.
  unfold match_at. destruct (strip_prefix fence s) as [r|] eqn:E;
    [|discriminate].
  apply strip_prefix_some in E. subst s.
  generalize (language_tags ++ [[]]).
  intros alts; induction alts as [|a alts IH]; simpl; [discriminate|].
  destruct (strip_prefix a r) as [r'|] eqn:Ea.
  - destruct (after_tag r') as [[cap' rest']|] eqn:K.
    + intros H; inversion H; subst. exists a. split; [now left|].
      apply strip_prefix_some in Ea. subst r.
      destruct r' as [|c r']; [discriminate|]. simpl in K.
      destruct (N.eqb_spec c newline) as [->|]; [|discriminate].
      apply lazy_until_fence_parts in K. subst r'.
      rewrite <- !app_assoc. simpl. rewrite <- ?app_assoc. reflexivity.
    + intros H. destruct (IH H) as (tag & Hin & Hs).
      exists tag. split; [now right | exact Hs].
  - intros H. destruct (IH H) as (tag & Hin & Hs).
    exists tag. split; [now right | exact Hs].
Qed.

Lemma match_at_shrinks (s cap rest : jsstring) :
  match_at s = Some (cap, rest) -> length cap + length rest < length s.
Proof.
  intros H. destruct (match_at_parts _ _ _ H) as (tag & _ & ->).
  unfold fenced. rewrite !length_app. simpl. rewrite !length_app.
  simpl. lia.
Qed.

Lemma replace_fences_length (s : jsstring) :
  length (replace_fences s) <= length s.
Proof.
  remember (length s) as n eqn:Hn. revert s Hn.
  induction n as [n IH] using lt_wf_ind. intros s Hn.
  destruct s as [|c s]; [rewrite replace_fences_nil; simpl; lia|].
  destruct (match_at (c :: s)) as [[cap rest]|] eqn:E.
  - rewrite (replace_fences_match _ _ _ E), length_app.
    pose proof (match_at_shrinks _ _ _ E) as L.
    assert (length (replace_fences rest) <= length rest)
      by (apply (IH (length rest)); [lia | reflexivity]).
    lia.
  - rewrite (replace_fences_copy _ _ E). simpl in *.
    assert (length (replace_fences s) <= length s)
      by (apply (IH (length s)); [lia | reflexivity]).
    lia.
Qed.

Lemma trimStart_length (s : jsstring) : length (trimStart s) <= length s.
Proof.
  induction s as [|c s IH]; simpl; [lia|].
  destruct (is_white_space c); simpl; lia.
Qed.

Lemma trim_length (s : jsstring) : length (trim s) <= length s.
Proof.
  unfold trim, trimEnd. rewrite length_rev.
  pose proof (trimStart_length (rev (trimStart s))) as H1.
  rewrite length_rev in H1. pose proof (trimStart_length s). lia.
Qed.

(** X5: the displayed code is never longer than the buffer it is derived
    from. *)
Theorem removeCodeFormatting_length (code : jsstring) :
  length (removeCodeFormatting code) <= length code.
Proof.
  unfold removeCodeFormatting.
  pose proof (trim_length (replace_fences code)).
  pose proof (replace_fences_length code). lia.
Qed.

Lemma trimStart_head (s r : jsstring) (c : char16) :
  trimStart s = c :: r -> is_white_space c = false.
Proof.
  induction s as [|d s IH]; simpl; [discriminate|].
  destruct (is_white_space d) eqn:E; [exact IH|].
  intros H; inversion H; subst. exact E.
Qed.

(** [trimStart] takes a blank prefix off. *)
Lemma trimStart_suffix (s : jsstring) :
  exists w, blank w = true /\ s = w ++ trimStart s.
Proof.
  induction s as [|c s (w & Hw & IH)]; [exists []; auto|].
  simpl. destruct (is_white_space c) eqn:E.
  - exists (c :: w). simpl. rewrite E, Hw. split; [reflexivity|].
    rewrite IH at 1. reflexivity.
  - exists []. auto.
Qed.

Lemma trim_head (s r : jsstring) (c : char16) :
  trim s = c :: r -> is_white_space c = false.
Proof.
  unfold trim, trimEnd. intros H.
  destruct (trimStart_suffix (rev (trimStart s))) as (w & Hw & Hs).
  apply (f_equal (@rev char16)) in Hs.
  rewrite rev_involutive, rev_app_distr, H in Hs.
  apply (trimStart_head s (r ++ rev w)). rewrite Hs. reflexivity.
Qed.

Lemma trim_last (s : jsstring) :
  match rev (trim s) with
  | [] => True
  | c :: _ => is_white_space c = false
  end.
Proof.
  unfold trim, trimEnd. rewrite rev_involutive.
  destruct (trimStart (rev (trimStart s))) as [|c r] eqn:E; [exact I|].
  exact (trimStart_head _ _ _ E).
Qed.

(** X6: the displayed code neither starts nor ends with white space. *)
Theorem removeCodeFormatting_trimmed (code : jsstring) :
  ends_trimmed (removeCodeFormatting code) = true.
Proof.
  unfold ends_trimmed, removeCodeFormatting.
  pose proof (trim_last (replace_fences code)) as Hlast.
  destruct (trim (replace_fences code)) as [|c r] eqn:E.
  - reflexivity.
  - rewrite (trim_head _ _ _ E).
    destruct (rev (c :: r)); [reflexivity|].
    rewrite Hlast. reflexivity.
Qed.

End FenceFacts.

(** ** The streaming loop in general *)

(** X7: once at least one chunk has been read, the code on display is
    the fence-stripped concatenation of all chunks read, whether the
    stream then ends or a read fails; nothing else of the session changes
    and no effect is issued.  So two streams that carry the same text in
    different chunks leave the same display. *)
Theorem stream_code_whole_buffer (chunks : list jsstring)
    (ending : StreamEnd) (s : Session.t) (trace : list Effect) :
  chunks <> [] ->
  snd (stream_code chunks ending [] (s, trace))
  = (Session.setGeneratedCode (removeCodeFormatting (concat chunks)) s,
     trace).
Proof.
  intros H. rewrite stream_code_run. simpl.
  destruct chunks as [|value chunks]; [congruence|].
  rewrite displayed_cons. reflexivity.
Qed.

Lemma stream_code_whole_buffer_witness :
  snd (stream_code [js " ab"; js "c "] ReadFails [] (prompted_session, []))
  = (Session.setGeneratedCode (js "abc") prompted_session, []).
Proof.
  rewrite (stream_code_whole_buffer [js " ab"; js "c "] ReadFails
             prompted_session []); [reflexivity | discriminate].
Defined.

(** ** Analytics over a whole session *)

Lemma js_add_exact (a b : Z) :
  (0 <= a)%Z -> (0 <= b)%Z -> (a + b <= 2 ^ 53 - 1)%Z ->
  js_add a b = (a + b)%Z.
Proof.
  intros Ha Hb H. apply js_add_safe. unfold safe_integer.
  apply Z.leb_le. rewrite Z.abs_eq by lia. exact H.
Qed.

Lemma sum_of_nonneg (xs : list TokenAnalytics.t) :
  forallb counts_nonneg xs = true ->
  (0 <= sum_of TokenAnalytics.promptTokens xs)%Z
  /\ (0 <= sum_of TokenAnalytics.responseTokens xs)%Z.
Proof.
  induction xs as [|a xs IH]; simpl; [lia|].
  rewrite andb_true_iff. unfold counts_nonneg at 1.
  rewrite andb_true_iff, !Z.leb_le. intros [[Hp Hr] Hxs].
  destruct (IH Hxs). fold (sum_of TokenAnalytics.promptTokens xs).
  fold (sum_of TokenAnalytics.responseTokens xs). lia.
Qed.

Section MergeAll.

Variable percent : Z -> Z -> jsstring.

Lemma merge_some_counts (c : CumulativeTokenAnalytics.t)
    (a : TokenAnalytics.t) :
  let next := mergeAnalytics percent (Some c) a in
  CumulativeTokenAnalytics.cumulativePromptTokens next
  = js_add (CumulativeTokenAnalytics.cumulativePromptTokens c)
      (TokenAnalytics.promptTokens a)
  /\ CumulativeTokenAnalytics.cumulativeResponseTokens next
     = js_add (CumulativeTokenAnalytics.cumulativeResponseTokens c)
         (TokenAnalytics.responseTokens a)
  /\ CumulativeTokenAnalytics.cumulativeTotalTokens next
     = js_add (CumulativeTokenAnalytics.cumulativePromptTokens next)
         (CumulativeTokenAnalytics.cumulativeResponseTokens next)
  /\ CumulativeTokenAnalytics.totalTokens next
     = TokenAnalytics.totalTokens a
  /\ CumulativeTokenAnalytics.maxTokens next = TokenAnalytics.maxTokens a.
Proof. simpl. repeat split. Qed.

(** As long as the counts are not negative and everything added up stays
    a safe integer, no sum of the fold is rounded. *)
Lemma merge_fold_counts (later : list TokenAnalytics.t)
    (c : CumulativeTokenAnalytics.t) :
  (0 <= CumulativeTokenAnalytics.cumulativePromptTokens c)%Z ->
  (0 <= CumulativeTokenAnalytics.cumulativeResponseTokens c)%Z ->
  forallb counts_nonneg later = true ->
  (CumulativeTokenAnalytics.cumulativePromptTokens c
   + CumulativeTokenAnalytics.cumulativeResponseTokens c
   + (sum_of TokenAnalytics.promptTokens later
      + sum_of TokenAnalytics.responseTokens later) <= 2 ^ 53 - 1)%Z ->
  let final :=
    fold_left (fun acc a => mergeAnalytics percent (Some acc) a) later c in
  CumulativeTokenAnalytics.cumulativePromptTokens final
  = (CumulativeTokenAnalytics.cumulativePromptTokens c
     + sum_of TokenAnalytics.promptTokens later)%Z
  /\ CumulativeTokenAnalytics.cumulativeResponseTokens final
     = (CumulativeTokenAnalytics.cumulativeResponseTokens c
        + sum_of TokenAnalytics.responseTokens later)%Z
  /\ (later <> [] ->
      CumulativeTokenAnalytics.cumulativeTotalTokens final
      = (CumulativeTokenAnalytics.cumulativePromptTokens final
         + CumulativeTokenAnalytics.cumulativeResponseTokens final)%Z).
Proof.
  revert c; induction later as [|a later IH]; intros c Hcp Hcr Hnn Hb final.
  - subst final. cbn [fold_left sum_of fold_right].
    repeat split; try lia. congruence.
  - subst final. cbn [fold_left].
    cbn [forallb] in Hnn. apply andb_true_iff in Hnn.
    destruct Hnn as [Ha Hnn].
    destruct (sum_of_nonneg later Hnn) as [Sp0 Sr0].
    unfold counts_nonneg in Ha. apply andb_true_iff in Ha.
    destruct Ha as [Hap Har]. apply Z.leb_le in Hap, Har.
    cbn [sum_of fold_right] in Hb |- *.
    fold (sum_of TokenAnalytics.promptTokens later) in Hb |- *.
    fold (sum_of TokenAnalytics.responseTokens later) in Hb |- *.
    destruct (merge_some_counts c a) as (Sp & Sr & St & _).
    cbv zeta in Sp, Sr, St.
    rewrite js_add_exact in Sp by lia.
    rewrite js_add_exact in Sr by lia.
    rewrite Sp, Sr in St. rewrite js_add_exact in St by lia.
    destruct (IH (mergeAnalytics percent (Some c) a)) as (Hp & Hr & Ht);
      try assumption; try (rewrite ?Sp, ?Sr; lia).
    cbv zeta in Hp, Hr, Ht.
    rewrite Hp, Hr, Sp, Sr. repeat split; try lia.
    intros _. destruct later as [|b later].
    + cbn [fold_left sum_of fold_right]. rewrite ?St, ?Sp, ?Sr. lia.
    + rewrite Ht by discriminate. rewrite ?Hp, ?Hr, ?Sp, ?Sr. lia.
Qed.

(** The per-exchange fields are those of the last exchange merged. *)
Lemma merge_fold_latest (later : list TokenAnalytics.t)
    (c : CumulativeTokenAnalytics.t) (d : TokenAnalytics.t) :
  later <> [] ->
  let final :=
    fold_left (fun acc a => mergeAnalytics percent (Some acc) a) later c in
  CumulativeTokenAnalytics.totalTokens final
  = TokenAnalytics.totalTokens (last later d)
  /\ CumulativeTokenAnalytics.maxTokens final
     = TokenAnalytics.maxTokens (last later d).
Proof.
  revert c; induction later as [|a later IH]; intros c H; [congruence|].
  destruct later as [|b later].
  - simpl. auto.
  - change (last (a :: b :: later) d) with (last (b :: later) d).
    cbn [fold_left]. apply IH. discriminate.
Qed.

(** X8: for exchanges whose prompt and response counts are not negative
    and add up, all together, to a safe integer (at most 2^53 - 1): after
    any number of analytics updates the cumulative prompt and response
    counts are the sums over all exchanges; from the second update on,
    the cumulative total is the sum of those two, so the [totalTokens]
    the exchanges report no longer count; and the per-exchange total and
    ceiling are those of the latest exchange. *)
Theorem mergeAll_sums (first : TokenAnalytics.t)
    (later : list TokenAnalytics.t) :
  forallb counts_nonneg (first :: later) = true ->
  safe_integer
    (sum_of TokenAnalytics.promptTokens (first :: later)
     + sum_of TokenAnalytics.responseTokens (first :: later)) = true ->
  let final := mergeAll percent first later in
  CumulativeTokenAnalytics.cumulativePromptTokens final
  = sum_of TokenAnalytics.promptTokens (first :: later)
  /\ CumulativeTokenAnalytics.cumulativeResponseTokens final
     = sum_of TokenAnalytics.responseTokens (first :: later)
  /\ CumulativeTokenAnalytics.cumulativeTotalTokens final
     = match later with
       | [] => TokenAnalytics.totalTokens first
       | _ :: _ =>
           (sum_of TokenAnalytics.promptTokens (first :: later)
            + sum_of TokenAnalytics.responseTokens (first :: later))%Z
       end
  /\ CumulativeTokenAnalytics.totalTokens final
     = TokenAnalytics.totalTokens (last later first)
  /\ CumulativeTokenAnalytics.maxTokens final
     = TokenAnalytics.maxTokens (last later first).
Proof.
  intros Hnn Hsafe. unfold mergeAll.
  destruct (sum_of_nonneg _ Hnn) as [Sp0 Sr0].
  unfold safe_integer in Hsafe. apply Z.leb_le in Hsafe.
  rewrite Z.abs_eq in Hsafe by lia.
  cbn [forallb] in Hnn. apply andb_true_iff in Hnn.
  destruct Hnn as [Hf Hnn].
  unfold counts_nonneg in Hf. apply andb_true_iff in Hf.
  destruct Hf as [Hfp Hfr]. apply Z.leb_le in Hfp, Hfr.
  cbn [sum_of fold_right] in Hsafe, Sp0, Sr0 |- *.
  fold (sum_of TokenAnalytics.promptTokens later) in Hsafe, Sp0 |- *.
  fold (sum_of TokenAnalytics.responseTokens later) in Hsafe, Sr0 |- *.
  destruct (mergeAnalytics_first percent first) as (Fp & Fr & Ft).
  cbv zeta in Fp, Fr, Ft.
  destruct (merge_fold_counts later (mergeAnalytics percent None first))
    as (Hp & Hr & Ht); try assumption; try (rewrite ?Fp, ?Fr; lia).
  cbv zeta in Hp, Hr, Ht. rewrite Fp in Hp. rewrite Fr in Hr.
  cbv zeta. split; [exact Hp|]. split; [exact Hr|]. split.
  - destruct later as [|a later]; [exact Ft|].
    rewrite Ht by discriminate. rewrite Hp, Hr. reflexivity.
  - destruct later as [|a later]; [split; reflexivity|].
    apply merge_fold_latest. discriminate.
Qed.

End MergeAll.

Lemma mergeAll_sums_witness :
  CumulativeTokenAnalytics.cumulativeTotalTokens
    (mergeAll (fun _ _ => []) (exchange 12 30 45)
       [exchange 5 8 13; exchange 7 1 9])
  = 63%Z.
Proof.
  destruct (mergeAll_sums (fun _ _ => []) (exchange 12 30 45)
              [exchange 5 8 13; exchange 7 1 9] eq_refl eq_refl)
    as (_ & _ & Htotal & _).
  exact Htotal.
Defined.

(** The updates of a session are these merges: a run of analytics events
    on a session without analytics stores [mergeAll]. *)
Lemma analytics_events_merge (percent : Z -> Z -> jsstring)
    (groupedModels : list ModelGroup.t) (first : TokenAnalytics.t)
    (later : list TokenAnalytics.t) (s : Session.t) :
  Session.tokenAnalytics s = None ->
  Session.tokenAnalytics
    (run_events percent groupedModels
       (map AnalyticsUpdate (first :: later)) s)
  = Some (mergeAll percent first later).
Proof.
  intros Hs. unfold run_events, mergeAll. cbn [map fold_left].
  assert (G : forall xs t c,
    Session.tokenAnalytics t = Some c ->
    Session.tokenAnalytics
      (fold_left (step percent groupedModels) (map AnalyticsUpdate xs) t)
    = Some (fold_left (fun acc a => mergeAnalytics percent (Some acc) a)
              xs c)).
  { induction xs as [|a xs IH]; intros t c Ht; [exact Ht|].
    cbn [map fold_left]. apply IH.
    unfold step, rerender, dispatch, settingsEffect. simpl.
    repeat match goal with
           | |- context [if ?b then _ else _] => destruct b
           end; simpl; rewrite Ht; reflexivity. }
  apply G. unfold step, rerender, dispatch, settingsEffect. simpl.
  repeat match goal with
         | |- context [if ?b then _ else _] => destruct b
         end; simpl; rewrite Hs; reflexivity.
Qed.

(** ** The settings effect against the defaults *)

(** X9: the table of the settings effect agrees with
    [getDefaultSettings]: run on the defaults of a provider, for that
    provider, the effect changes nothing. *)
Theorem settingsUpdate_defaults (provider : jsstring) :
  settingsUpdate provider (getDefaultSettings provider)
  = getDefaultSettings provider.
Proof.
  unfold settingsUpdate, getDefaultSettings. simpl.
  destruct (Str.eqb provider (js "deepseek"));
    destruct (Str.eqb provider (js "anthropic"));
    destruct (Str.eqb provider (js "openai"));
    destruct (Str.eqb provider (js "google")); reflexivity.
Qed.

Lemma eqb_refl (a : jsstring) : Str.eqb a a = true.
Proof. apply StrFacts.eqb_eq. reflexivity. Qed.

Lemma setAISettings_same (f : AISettings.t -> AISettings.t)
    (s : Session.t) :
  f (Session.aiSettings s) = Session.aiSettings s ->
  Session.setAISettings f s = s.
Proof. destruct s. unfold Session.setAISettings. simpl. now intros ->. Qed.

Section FirstRender.

Variable groupedModels : list ModelGroup.t.

(** The model selected at first is found in the first group. *)
Lemma currentProvider_initial :
  (forall g rest, groupedModels = g :: rest -> ModelGroup.models g <> []) ->
  currentProvider groupedModels
    (Session.model (initialSession groupedModels))
  = initialProvider groupedModels.
Proof.
  intros H. unfold currentProvider, initialProvider, initialSession.
  destruct groupedModels as [|g rest]; [reflexivity|].
  specialize (H g rest eq_refl).
  destruct (ModelGroup.models g) as [|m ms] eqn:E; [congruence|].
  cbn [Session.model find]. rewrite E. cbn [existsb].
  rewrite eqb_refl. cbn [orb].
  destruct (falsy (ModelGroup.provider g)); reflexivity.
Qed.

(** X10: when the first provider group lists a model (or there is no
    group at all), the settings of the first render are the defaults of
    the provider of the selected model, and the settings effect that runs
    on mount leaves the session as it is. *)
Theorem mounted_keeps_defaults :
  (forall g rest, groupedModels = g :: rest -> ModelGroup.models g <> []) ->
  mounted groupedModels = initialSession groupedModels
  /\ Session.aiSettings (mounted groupedModels)
     = getDefaultSettings
         (currentProvider groupedModels
            (Session.model (initialSession groupedModels))).
Proof.
  intros H. unfold mounted. rewrite (currentProvider_initial H).
  unfold settingsEffect. rewrite initialProvider_truthy.
  assert (E : Session.setAISettings
                (settingsUpdate (initialProvider groupedModels))
                (initialSession groupedModels)
              = initialSession groupedModels).
  { apply setAISettings_same. apply settingsUpdate_defaults. }
  rewrite E. split; reflexivity.
Qed.

End FirstRender.

Lemma mounted_keeps_defaults_witness :
  mounted demo_groups = initialSession demo_groups.
Proof.
  apply (mounted_keeps_defaults demo_groups).
  intros g rest H. inversion H. discriminate.
Defined.

(** ** Fresh creation, case by case *)

(** Case analysis on a generation answer. *)
Ltac split_generate generate :=
  destruct generate as [|[gok [[chunks ending]|]]];
  [| destruct gok; [destruct ending|] | destruct gok].

Section CreateApp.

Variable percent : Z -> Z -> jsstring.

(** X11: a fresh creation in which every call succeeds ends with status
    [created], the chat visible, the identifier the store returned, the
    analytics of this exchange alone (whatever was accumulated before is
    dropped), the conversation seeded with the prompt, and exactly these
    effects in this order: generation, store, analytics, scroll. *)
Theorem createApp_success (chunks : list jsstring) (id : option jsstring)
    (analytics : TokenAnalytics.t) (s : Session.t) :
  Session.status s = initial ->
  Session.prompt s <> [] ->
  let env :=
    {| CreateEnv.generate := streams chunks;
       CreateEnv.persist :=
         Resolves {| JsonResponse.ok := true;
                     JsonResponse.json := Some {| CreatedApp.id := id |} |};
       CreateEnv.analytics :=
         Resolves {| JsonResponse.ok := true;
                     JsonResponse.json := Some analytics |} |} in
  let run := dispatch (createApp percent env) s in
  Session.status (fst run) = created
  /\ Session.chatVisible (fst run) = true
  /\ Session.currentGeneratedAppId (fst run) = id
  /\ Session.generatedCode (fst run) = displayed chunks [] []
  /\ Session.tokenAnalytics (fst run)
     = Some (mergeAnalytics percent None analytics)
  /\ Session.showAnalytics (fst run) = true
  /\ Session.messages (fst run) = [user (Session.prompt s)]
  /\ Session.refinementMessages (fst run) = []
  /\ snd run
     = [ PreventDefault;
         Fetch (post_generateCode (Session.model s)
                  [user (Session.prompt s)] (Session.aiSettings s));
         Fetch (post_generated_apps (Session.model s) (Session.prompt s)
                  (concat chunks));
         Fetch (post_tokenAnalytics (Session.model s) (Session.prompt s)
                  (concat chunks) id);
         ScrollTo ].
Proof.
  intros Hs Hp env run. subst run env.
  unfold dispatch, createApp, streams. rewrite (guard_passes s Hs Hp).
  step_handler. simpl. repeat split.
Qed.

(** X12: a non-OK answer of the analytics endpoint is ignored: the run
    still ends with status [created], the chat visible and the new
    identifier; no analytics are stored, the panel stays hidden and
    nothing is logged. *)
Theorem createApp_analytics_not_ok (chunks : list jsstring)
    (id : option jsstring) (json : option TokenAnalytics.t)
    (s : Session.t) :
  Session.status s = initial ->
  Session.prompt s <> [] ->
  let env :=
    {| CreateEnv.generate := streams chunks;
       CreateEnv.persist :=
         Resolves {| JsonResponse.ok := true;
                     JsonResponse.json := Some {| CreatedApp.id := id |} |};
       CreateEnv.analytics :=
         Resolves {| JsonResponse.ok := false;
                     JsonResponse.json := json |} |} in
  let run := dispatch (createApp percent env) s in
  Session.status (fst run) = created
  /\ Session.chatVisible (fst run) = true
  /\ Session.currentGeneratedAppId (fst run) = id
  /\ Session.tokenAnalytics (fst run) = None
  /\ Session.showAnalytics (fst run) = false
  /\ existsb (fun e => match e with ConsoleError _ => true | _ => false end)
       (snd run) = false.
Proof.
  intros Hs Hp env run. subst run env.
  unfold dispatch, createApp, streams. rewrite (guard_passes s Hs Hp).
  step_handler. simpl. repeat split.
Qed.

(** X13: when the analytics call fails outright - the fetch is rejected,
    or the OK response has no valid JSON - the whole creation counts as
    failed although the app was stored: status [initial], chat hidden,
    error logged, with the new identifier and the streamed code left in
    place. *)
Theorem createApp_analytics_throws (chunks : list jsstring)
    (id : option jsstring)
    (analytics : Fetched (JsonResponse.t TokenAnalytics.t))
    (s : Session.t) :
  Session.status s = initial ->
  Session.prompt s <> [] ->
  analytics = Rejects
  \/ analytics = Resolves {| JsonResponse.ok := true;
                             JsonResponse.json := None |} ->
  let env :=
    {| CreateEnv.generate := streams chunks;
       CreateEnv.persist :=
         Resolves {| JsonResponse.ok := true;
                     JsonResponse.json := Some {| CreatedApp.id := id |} |};
       CreateEnv.analytics := analytics |} in
  let run := dispatch (createApp percent env) s in
  Session.status (fst run) = initial
  /\ Session.chatVisible (fst run) = false
  /\ Session.currentGeneratedAppId (fst run) = id
  /\ Session.generatedCode (fst run) = displayed chunks [] []
  /\ Session.tokenAnalytics (fst run) = None
  /\ last (snd run) PreventDefault
     = ConsoleError (js "Error generating code:").
Proof.
  intros Hs Hp Ha env run. subst run env.
  unfold dispatch, createApp, streams. rewrite (guard_passes s Hs Hp).
  destruct Ha as [-> | ->]; step_handler; simpl; repeat split.
Qed.


(** X15: whatever the network answers, and whether or not its guard
    lets it start, [createApp] never touches the prompt, the selected
    model, the AI settings, the runtime error or the settings-panel
    flag. *)
Theorem createApp_frame (env : CreateEnv.t) (s : Session.t) :
  let final := fst (dispatch (createApp percent env) s) in
  Session.prompt final = Session.prompt s
  /\ Session.model final = Session.model s
  /\ Session.aiSettings final = Session.aiSettings s
  /\ Session.runtimeError final = Session.runtimeError s
  /\ Session.showSettings final = Session.showSettings s.
Proof.
  unfold dispatch, createApp.
  destruct (falsy (Session.prompt s)
            || negb (status_eqb (Session.status s) initial)).
  - simpl. repeat split.
  - destruct env as [generate persist analytics].
    split_generate generate; split_answers persist analytics;
      step_handler; simpl; repeat split.
Qed.

End CreateApp.

Lemma createApp_success_witness :
  Session.status
    (fst (dispatch
            (createApp (fun _ _ => [])
               {| CreateEnv.generate := streams fenced_chunks;
                  CreateEnv.persist := persists (js "app-2");
                  CreateEnv.analytics :=
                    Resolves {| JsonResponse.ok := true;
                                JsonResponse.json :=
                                  Some (exchange 12 30 42) |} |})
            persisted_session)) = created.
Proof.
  apply (createApp_success (fun _ _ => []) fenced_chunks (Some (js "app-2"))
           (exchange 12 30 42) persisted_session).
  - reflexivity.
  - discriminate.
Defined.

Lemma createApp_analytics_not_ok_witness :
  Session.status
    (fst (dispatch
            (createApp (fun _ _ => [])
               {| CreateEnv.generate := streams fenced_chunks;
                  CreateEnv.persist := persists (js "app-2");
                  CreateEnv.analytics :=
                    Resolves {| JsonResponse.ok := false;
                                JsonResponse.json := None |} |})
            persisted_session)) = created.
Proof.
  apply (createApp_analytics_not_ok (fun _ _ => []) fenced_chunks
           (Some (js "app-2")) None
           persisted_session).
  - reflexivity.
  - discriminate.
Defined.

Lemma createApp_analytics_throws_witness :
  Session.status
    (fst (dispatch
            (createApp (fun _ _ => [])
               {| CreateEnv.generate := streams fenced_chunks;
                  CreateEnv.persist :=
                    Resolves
                      {| JsonResponse.ok := true;
                         JsonResponse.json :=
                           Some {| CreatedApp.id := Some (js "app-2") |} |};
                  CreateEnv.analytics := Rejects |})
            persisted_session)) = initial.
Proof.
  apply (createApp_analytics_throws (fun _ _ => []) fenced_chunks
           (Some (js "app-2"))
           Rejects persisted_session).
  - reflexivity.
  - discriminate.
  - left. reflexivity.
Defined.


(** ** Chat refinement, case by case *)

Section ChatRefinement.

Variable percent : Z -> Z -> jsstring.

(** X16: a refinement whose stream runs to its end sends the code on
    display as a system message, followed by the committed history and
    the new user message; it asks for token analytics - with the raw
    buffer and the identifier - only when an identifier is set and not
    empty. *)
Theorem handleChatMessage_requests (message : jsstring)
    (chunks : list jsstring)
    (analytics : Fetched (JsonResponse.t TokenAnalytics.t))
    (s : Session.t) :
  Session.status s = created ->
  Session.generatedCode s <> [] ->
  let env := {| ChatEnv.generate := streams chunks;
                ChatEnv.analytics := analytics |} in
  requests (snd (dispatch (handleChatMessage percent env message) s))
  = post_generateCode (Session.model s)
      (previous_code s
       :: Session.refinementMessages s ++ [user message])
      (Session.aiSettings s)
    :: (if truthy_id (Session.currentGeneratedAppId s)
        then [ post_tokenAnalytics (Session.model s) message
                 (concat chunks) (Session.currentGeneratedAppId s) ]
        else []).
Proof.
  intros Hs Hc env. subst env. apply falsy_cons in Hc.
  unfold dispatch, handleChatMessage, streams, previous_code.
  rewrite Hs, Hc.
  destruct (truthy_id (Session.currentGeneratedAppId s));
    [destruct analytics as [|[ok [a|]]]; [| destruct ok ..] |];
    step_handler; reflexivity.
Qed.

(** X19: when an identifier is set and the analytics endpoint answers OK
    with valid JSON, a completed refinement merges that exchange into the
    analytics accumulated so far and reveals the panel; without an
    identifier the analytics stay as they were. *)
Theorem handleChatMessage_merges_analytics (message : jsstring)
    (chunks : list jsstring) (analytics : TokenAnalytics.t)
    (s : Session.t) :
  Session.status s = created ->
  Session.generatedCode s <> [] ->
  let env :=
    {| ChatEnv.generate := streams chunks;
       ChatEnv.analytics :=
         Resolves {| JsonResponse.ok := true;
                     JsonResponse.json := Some analytics |} |} in
  let final := fst (dispatch (handleChatMessage percent env message) s) in
  if truthy_id (Session.currentGeneratedAppId s)
  then Session.tokenAnalytics final
       = Some (mergeAnalytics percent (Session.tokenAnalytics s) analytics)
       /\ Session.showAnalytics final = true
  else Session.tokenAnalytics final = Session.tokenAnalytics s
       /\ Session.showAnalytics final = Session.showAnalytics s.
Proof.
  intros Hs Hc env final. subst final env. apply falsy_cons in Hc.
  unfold dispatch, handleChatMessage, streams. rewrite Hs, Hc.
  destruct (truthy_id (Session.currentGeneratedAppId s));
    step_handler; simpl; split; reflexivity.
Qed.

End ChatRefinement.

Lemma handleChatMessage_requests_witness :
  requests
    (snd (dispatch
            (handleChatMessage (fun _ _ => [])
               {| ChatEnv.generate := streams [js "export default 2"];
                  ChatEnv.analytics := Rejects |} (js "make it blue"))
            created_session))
  = [ post_generateCode (js "deepseek-chat")
        [ previous_code created_session; user (js "make it blue") ]
        (getDefaultSettings (js "deepseek"));
      post_tokenAnalytics (js "deepseek-chat") (js "make it blue")
        (js "export default 2") (Some (js "app-1")) ].
Proof.
  apply (handleChatMessage_requests (fun _ _ => [])
           (js "make it blue")
           [js "export default 2"] Rejects created_session).
  - reflexivity.
  - discriminate.
Defined.

Lemma handleChatMessage_merges_analytics_witness :
  Session.showAnalytics
    (fst (dispatch
            (handleChatMessage (fun _ _ => [])
               {| ChatEnv.generate := streams [js "export default 2"];
                  ChatEnv.analytics :=
                    Resolves {| JsonResponse.ok := true;
                                JsonResponse.json :=
                                  Some (exchange 5 8 13) |} |}
               (js "make it blue"))
            created_session)) = true.
Proof.
  apply (handleChatMessage_merges_analytics (fun _ _ => [])
           (js "make it blue")
           [js "export default 2"] (exchange 5 8 13) created_session).
  - reflexivity.
  - discriminate.
Defined.

Lemma completed_refinement_commits_witness :
  Session.refinementMessages
    (fst (dispatch
            (handleChatMessage (fun _ _ => [])
               {| ChatEnv.generate := streams [js "export default 2"];
                  ChatEnv.analytics := Rejects |} (js "make it blue"))
            created_session))
  = [user (js "make it blue")].
Proof.
  apply (completed_refinement_commits (fun _ _ => [])
           {| ChatEnv.generate := streams [js "export default 2"];
              ChatEnv.analytics := Rejects |} (js "make it blue")
           created_session [js "export default 2"]).
  - reflexivity.
  - discriminate.
  - reflexivity.
Defined.

(** ** The prompt-assist actions, exactly *)

Lemma setStatus_same (s : Session.t) :
  Session.setStatus (Session.status s) s = s.
Proof. destruct s; reflexivity. Qed.

(** X20: a started idea generation or prompt refinement issues exactly
    one request, with the selected model and the settings in force (and
    the current prompt, for the refinement), and changes nothing of the
    session but the prompt: when it fails, the session is exactly what it
    was. *)
Theorem prompt_assist_exact (answer : Fetched StreamResponse.t)
    (s : Session.t) :
  Session.status s = initial ->
  let after :=
    match completed_stream answer with
    | Some chunks => Session.setPrompt (trim (concat chunks)) s
    | None => s
    end in
  (fst (dispatch (generateAppIdea answer) s) = after
   /\ requests (snd (dispatch (generateAppIdea answer) s))
      = [post_generateIdea (Session.model s) (Session.aiSettings s)])
  /\ (Session.prompt s <> [] ->
      fst (dispatch (refinePrompt answer) s) = after
      /\ requests (snd (dispatch (refinePrompt answer) s))
         = [post_refinePrompt (Session.model s) (Session.prompt s)
              (Session.aiSettings s)]).
Proof.
  intros Hs after. subst after.
  assert (E : forall p,
            Session.setStatus initial (Session.setPrompt p s)
            = Session.setPrompt p s).
  { intros p. destruct s; simpl in *; subst; reflexivity. }
  assert (E' : Session.setStatus initial s = s).
  { rewrite <- Hs. apply setStatus_same. }
  split; [| intros Hp; apply falsy_cons in Hp];
    unfold dispatch, generateAppIdea, refinePrompt; rewrite Hs, ?Hp;
    split_generate answer; step_handler; simpl;
    (split; [first [apply E | apply E'] | reflexivity]).
Qed.

Lemma prompt_assist_exact_witness :
  fst (dispatch (generateAppIdea Rejects) prompted_session)
  = prompted_session.
Proof.
  destruct (prompt_assist_exact Rejects prompted_session eq_refl)
    as [[Hidea _] _].
  exact Hidea.
Defined.

(** ** The component as a state machine *)

Lemma at_rest_iff (s : Session.t) :
  at_rest s = true <->
  loading s = false
  /\ Session.showAnalytics s = present (Session.tokenAnalytics s)
  /\ user_only (Session.refinementMessages s) = true.
Proof.
  unfold at_rest.
  rewrite !andb_true_iff, negb_true_iff, !Bool.eqb_true_iff. tauto.
Qed.

Lemma user_only_snoc (history : list Message.t) (message : jsstring) :
  user_only history = true ->
  user_only (history ++ [user message]) = true.
Proof.
  intros H. unfold user_only. rewrite forallb_app. fold (user_only history).
  rewrite H. reflexivity.
Qed.

Section StateMachine.

Variable percent : Z -> Z -> jsstring.
Variable groupedModels : list ModelGroup.t.

(** A render changes the AI settings at most. *)
Lemma rerender_cells (before after : Session.t) :
  let r := rerender groupedModels before after in
  Session.status r = Session.status after
  /\ Session.chatVisible r = Session.chatVisible after
  /\ Session.showAnalytics r = Session.showAnalytics after
  /\ Session.tokenAnalytics r = Session.tokenAnalytics after
  /\ Session.refinementMessages r = Session.refinementMessages after
  /\ Session.prompt r = Session.prompt after
  /\ Session.generatedCode r = Session.generatedCode after
  /\ Session.model r = Session.model after
  /\ Session.currentGeneratedAppId r = Session.currentGeneratedAppId after
  /\ Session.runtimeError r = Session.runtimeError after.
Proof.
  unfold rerender, settingsEffect.
  destruct (Str.eqb _ _); [repeat split|].
  destruct (falsy _); repeat split.
Qed.

Lemma rerender_at_rest (before after : Session.t) :
  at_rest (rerender groupedModels before after) = at_rest after.
Proof.
  destruct (rerender_cells before after)
    as (H1 & H2 & H3 & H4 & H5 & _).
  unfold at_rest, loading. cbv zeta in *.
  rewrite H1, H3, H4, H5. reflexivity.
Qed.

Lemma createApp_at_rest (env : CreateEnv.t) (s : Session.t) :
  at_rest s = true ->
  at_rest (fst (dispatch (createApp percent env) s)) = true.
Proof.
  intros H. unfold dispatch, createApp.
  destruct (falsy (Session.prompt s)
            || negb (status_eqb (Session.status s) initial)).
  - exact H.
  - destruct env as [generate persist analytics].
    split_generate generate; split_answers persist analytics;
      step_handler; reflexivity.
Qed.

Lemma handleChatMessage_at_rest (env : ChatEnv.t) (message : jsstring)
    (s : Session.t) :
  at_rest s = true ->
  at_rest (fst (dispatch (handleChatMessage percent env message) s)) = true.
Proof.
  intros H. unfold dispatch, handleChatMessage.
  destruct (falsy (Session.generatedCode s)) eqn:Hc; [exact H|].
  destruct (status_eqb (Session.status s) created) eqn:Hs; [|exact H].
  apply at_rest_iff in H. destruct H as (_ & Ha & Hu).
  pose proof (user_only_snoc _ message Hu) as Hu'.
  destruct env as [generate analytics].
  split_generate generate;
    (destruct (truthy_id (Session.currentGeneratedAppId s));
     [destruct analytics as [|[aok [a|]]]; [| destruct aok ..] |]);
    step_handler; apply at_rest_iff; unfold loading; simpl;
    repeat split; assumption || reflexivity.
Qed.

Lemma prompt_assist_at_rest (answer : Fetched StreamResponse.t)
    (s : Session.t) :
  at_rest s = true ->
  at_rest (fst (dispatch (generateAppIdea answer) s)) = true
  /\ at_rest (fst (dispatch (refinePrompt answer) s)) = true.
Proof.
  intros H. unfold dispatch, generateAppIdea, refinePrompt.
  destruct (status_eqb (Session.status s) initial) eqn:Hs;
    [| rewrite orb_true_r; split; exact H].
  apply status_eqb_eq in Hs.
  apply at_rest_iff in H. destruct H as (_ & Ha & Hu).
  assert (G : forall p,
            at_rest (Session.setStatus initial (Session.setPrompt p s))
            = true /\ at_rest (Session.setStatus initial s) = true).
  { intros p. split; apply at_rest_iff; unfold loading; simpl;
      repeat split; assumption. }
  split.
  - split_generate answer; step_handler; simpl; apply (G []).
  - destruct (falsy (Session.prompt s)).
    + simpl. apply at_rest_iff. unfold loading. rewrite Hs. simpl.
      repeat split; assumption.
    + split_generate answer; step_handler; simpl; apply (G []).
Qed.

(** Every event takes a session at rest to a session at rest. *)
Lemma step_at_rest (s : Session.t) (e : Event) :
  at_rest s = true -> at_rest (step percent groupedModels s e) = true.
Proof.
  intros H. unfold step. rewrite rerender_at_rest.
  destruct e; cbn [handler].
  - apply createApp_at_rest, H.
  - apply prompt_assist_at_rest, H.
  - apply prompt_assist_at_rest, H.
  - apply handleChatMessage_at_rest, H.
  - apply at_rest_iff in H. destruct H as (_ & Ha & Hu).
    apply at_rest_iff. unfold loading. simpl. repeat split; assumption.
  - exact H.
  - exact H.
  - exact H.
  - exact H.
  - exact H.
  - exact H.
  - exact H.
  - exact H.
  - apply at_rest_iff in H. destruct H as (Hl & Ha & Hu).
    apply at_rest_iff. unfold loading in *. simpl.
    repeat split; assumption.
Qed.

Lemma run_events_at_rest (events : list Event) (s : Session.t) :
  at_rest s = true ->
  at_rest (run_events percent groupedModels events s) = true.
Proof.
  revert s; induction events as [|e events IH]; intros s H; [exact H|].
  apply IH, step_at_rest, H.
Qed.

Lemma mounted_at_rest : at_rest (mounted groupedModels) = true.
Proof.
  unfold mounted, settingsEffect. destruct (falsy _); reflexivity.
Qed.

Lemma reachable_at_rest (events : list Event) :
  at_rest (run_events percent groupedModels events (mounted groupedModels))
  = true.
Proof. apply run_events_at_rest, mounted_at_rest. Qed.

(** X21: the component never gets stuck in a transient status: after any
    sequence of events, each handled to its end, it is back in [initial]
    or [created], whatever the network answered. *)
Theorem never_stuck_loading (events : list Event) :
  loading (run_events percent groupedModels events
             (mounted groupedModels)) = false.
Proof.
  pose proof (reachable_at_rest events) as H.
  apply at_rest_iff in H. tauto.
Qed.

(** X23: after any sequence of events the analytics panel is shown
    exactly when cumulative analytics are stored. *)
Theorem analytics_shown_iff_present (events : list Event) :
  let s := run_events percent groupedModels events
             (mounted groupedModels) in
  Session.showAnalytics s = present (Session.tokenAnalytics s).
Proof.
  pose proof (reachable_at_rest events) as H.
  apply at_rest_iff in H. tauto.
Qed.

(** X24: the refinement history only ever holds user messages: what the
    model answered is never recorded in it. *)
Theorem refinement_history_user_only (events : list Event) :
  user_only
    (Session.refinementMessages
       (run_events percent groupedModels events (mounted groupedModels)))
  = true.
Proof.
  pose proof (reachable_at_rest events) as H.
  apply at_rest_iff in H. tauto.
Qed.

End StateMachine.

Section Created.

Variable percent : Z -> Z -> jsstring.
Variable groupedModels : list ModelGroup.t.

(** X26: the guards are stricter than the [disabled] flags: in status
    [created] with a prompt typed in, the idea button and the submit
    button are enabled, yet idea generation and fresh creation do
    nothing. *)
Theorem enabled_but_guarded (env : CreateEnv.t)
    (answer : Fetched StreamResponse.t) (s : Session.t) :
  Session.status s = created ->
  Session.prompt s <> [] ->
  idea_disabled s = false
  /\ submit_disabled s = false
  /\ dispatch (generateAppIdea answer) s = (s, [])
  /\ fst (dispatch (createApp percent env) s) = s
  /\ requests (snd (dispatch (createApp percent env) s)) = [].
Proof.
  intros Hs Hp. apply falsy_cons in Hp.
  unfold idea_disabled, submit_disabled, loading, dispatch,
    generateAppIdea, createApp.
  rewrite Hs, Hp. simpl. auto.
Qed.

(** X27: after a saved generation with code is loaded and the component
    has rendered, a chat refinement does start, and its request carries
    the loaded code, the loaded model, the settings of that render - the
    earlier ones, or what the settings effect made of them when the
    provider changed - and the refinement history of whatever was refined
    before the load, which the load did not clear. *)
Theorem load_then_refine (generation : SavedGeneration.t)
    (message : jsstring) (env : ChatEnv.t) (s : Session.t) :
  let app := SavedGeneration.generatedApp generation in
  let loaded :=
    rerender groupedModels s
      (fst (dispatch (handleLoadGeneration generation) s)) in
  GeneratedApp.code app <> [] ->
  hd_error
    (requests (snd (dispatch (handleChatMessage percent env message)
                      loaded)))
  = Some (post_generateCode (GeneratedApp.model app)
            ({| Message.role := js "system";
                Message.content :=
                  js "Previous code: " ++ GeneratedApp.code app |}
             :: Session.refinementMessages s ++ [user message])
            (if Str.eqb (currentProvider groupedModels (Session.model s))
                  (currentProvider groupedModels (GeneratedApp.model app))
             then Session.aiSettings s
             else settingsUpdate
                    (currentProvider groupedModels (GeneratedApp.model app))
                    (Session.aiSettings s))).
Proof.
  intros app loaded Hc.
  destruct (load_rendered_cells groupedModels generation s)
    as (Hstatus & Hcode & _ & Hmodel & _ & _ & Hsettings & Hhistory & _).
  fold app in Hcode, Hmodel, Hsettings. fold loaded in Hstatus, Hcode,
    Hmodel, Hsettings, Hhistory.
  clearbody loaded. apply falsy_cons in Hc.
  unfold dispatch, handleChatMessage.
  rewrite Hstatus, Hcode, Hc, Hmodel, Hsettings, Hhistory.
  destruct env as [generate analytics].
  split_generate generate;
    try (destruct (truthy_id _);
         [destruct analytics as [|[aok [a|]]]; [| destruct aok ..] |]);
    step_handler; reflexivity.
Qed.

End Created.

Lemma enabled_but_guarded_witness :
  submit_disabled created_session = false
  /\ fst (dispatch
            (createApp (fun _ _ => [])
               {| CreateEnv.generate := streams [js "x"];
                  CreateEnv.persist := persists (js "app-2");
                  CreateEnv.analytics := Rejects |})
            created_session) = created_session.
Proof.
  destruct (enabled_but_guarded (fun _ _ => [])
              {| CreateEnv.generate := streams [js "x"];
                 CreateEnv.persist := persists (js "app-2");
                 CreateEnv.analytics := Rejects |}
              Rejects created_session)
    as (_ & Hsubmit & _ & Hsame & _).
  - reflexivity.
  - discriminate.
  - split; [exact Hsubmit | exact Hsame].
Defined.


Lemma load_then_refine_witness :
  hd_error
    (requests
       (snd (dispatch
               (handleChatMessage (fun _ _ => [])
                  {| ChatEnv.generate := Rejects;
                     ChatEnv.analytics := Rejects |} (js "add a reset"))
               (rerender demo_groups created_session
                  (fst (dispatch (handleLoadGeneration saved_counter)
                          created_session))))))
  = Some (post_generateCode (js "gpt-4o")
            [ {| Message.role := js "system";
                 Message.content :=
                   js "Previous code: export default function Counter(){}" |};
              user (js "add a reset") ]
            (settingsUpdate (js "openai")
               (getDefaultSettings (js "deepseek")))).
Proof.
  apply (load_then_refine (fun _ _ => []) demo_groups saved_counter
           (js "add a reset")
           {| ChatEnv.generate := Rejects; ChatEnv.analytics := Rejects |}
           created_session).
  discriminate.
Defined.

(** ** Runtime errors and the fixer *)

(** X28: a load does not clear the runtime error: when an error was
    reported for the code on display, then after a saved generation is
    loaded and the component has rendered, the error is still set and the
    fixer is shown again, next to the loaded code. *)
Theorem stale_error_shows_fixer (groupedModels : list ModelGroup.t)
    (generation : SavedGeneration.t) (error : jsstring) (s : Session.t) :
  Session.runtimeError s = Some error ->
  error <> [] ->
  let loaded :=
    rerender groupedModels s
      (fst (dispatch (handleLoadGeneration generation) s)) in
  fixer_shown loaded = true
  /\ Session.runtimeError loaded = Some error
  /\ Session.generatedCode loaded
     = GeneratedApp.code (SavedGeneration.generatedApp generation).
Proof.
  intros He Hne loaded.
  destruct (load_rendered_cells groupedModels generation s)
    as (Hstatus & Hcode & _ & _ & _ & _ & _ & _ & Herror & _).
  fold loaded in Hstatus, Hcode, Herror.
  unfold fixer_shown, viewer_shown. rewrite Hstatus, Herror, He.
  destruct error as [|c error]; [congruence|].
  repeat split. exact Hcode.
Qed.

Lemma stale_error_shows_fixer_witness :
  fixer_shown
    (rerender demo_groups
       (Session.setRuntimeError (Some (js "x is not defined"))
          created_session)
       (fst (dispatch (handleLoadGeneration saved_counter)
               (Session.setRuntimeError (Some (js "x is not defined"))
                  created_session)))) = true.
Proof.
  apply (stale_error_shows_fixer demo_groups saved_counter
           (js "x is not defined")
           (Session.setRuntimeError (Some (js "x is not defined"))
              created_session)).
  - reflexivity.
  - discriminate.
Defined.

(** The fixer round trip: an error reported in status [created]
    shows the fixer, and completing the fix replaces the code, clears the
    error and hides the fixer, leaving everything else as it was. *)
Theorem fix_round_trip (error fixedCode : jsstring) (s : Session.t) :
  Session.status s = created ->
  error <> [] ->
  let reported := fst (dispatch (onError error) s) in
  let fixed := fst (dispatch (onFixComplete fixedCode) reported) in
  fixer_shown reported = true
  /\ fixer_shown fixed = false
  /\ fixed = Session.setRuntimeError None
               (Session.setGeneratedCode fixedCode s).
Proof.
  intros Hs Hne. destruct error as [|c error]; [congruence|].
  unfold fixer_shown, viewer_shown. simpl. rewrite Hs. simpl.
  repeat split.
Qed.

Lemma fix_round_trip_witness :
  fixer_shown
    (fst (dispatch (onFixComplete (js "export default 3"))
            (fst (dispatch (onError (js "x is not defined"))
                    created_session)))) = false.
Proof.
  destruct (fix_round_trip (js "x is not defined") (js "export default 3")
              created_session) as (_ & Hfixed & _).
  - reflexivity.
  - discriminate.
  - exact Hfixed.
Defined.

(** ** A refinement that fails *)

(** X17: a started refinement that fails before its stream has run to
    the end issues the generation request only and logs the error; the
    code of the chunks delivered before the failure replaces the code
    that was on display, and only when no chunk was delivered does the
    earlier code stay. *)
Theorem handleChatMessage_fails (percent : Z -> Z -> jsstring)
    (env : ChatEnv.t) (message : jsstring) (s : Session.t) :
  Session.status s = created ->
  Session.generatedCode s <> [] ->
  completed_stream (ChatEnv.generate env) = None ->
  let run := dispatch (handleChatMessage percent env message) s in
  requests (snd run)
  = [ post_generateCode (Session.model s)
        (previous_code s
         :: Session.refinementMessages s ++ [user message])
        (Session.aiSettings s) ]
  /\ last (snd run) ScrollTo = ConsoleError (js "Error updating code:")
  /\ Session.generatedCode (fst run)
     = displayed (delivered (ChatEnv.generate env)) []
         (Session.generatedCode s).
Proof.
  intros Hs Hc Hfail run. subst run. apply falsy_cons in Hc.
  unfold dispatch, handleChatMessage, previous_code. rewrite Hs, Hc.
  destruct env as [generate analytics]. simpl in Hfail.
  split_generate generate; simpl in Hfail; try discriminate;
    step_handler; simpl; repeat split.
Qed.

Lemma handleChatMessage_fails_witness :
  Session.generatedCode
    (fst (dispatch
            (handleChatMessage (fun _ _ => [])
               {| ChatEnv.generate :=
                    Resolves
                      {| StreamResponse.ok := true;
                         StreamResponse.body :=
                           Some {| ReadableStream.chunks := [js "expo"];
                                   ReadableStream.ending := ReadFails |} |};
                  ChatEnv.analytics := Rejects |} (js "make it blue"))
            created_session)) = js "expo".
Proof.
  apply (handleChatMessage_fails (fun _ _ => [])
           {| ChatEnv.generate :=
                Resolves
                  {| StreamResponse.ok := true;
                     StreamResponse.body :=
                       Some {| ReadableStream.chunks := [js "expo"];
                               ReadableStream.ending := ReadFails |} |};
              ChatEnv.analytics := Rejects |} (js "make it blue")
           created_session).
  - reflexivity.
  - discriminate.
  - reflexivity.
Defined.
